(** * Proctoring monitor: a shallow embedding of [src/App.js]

    [App.js] is a React component.  Its monitoring logic lives in six
    closures over the component state: [detectPose], [captureFace],
    [getBrightness], [verifyFace], [detectObjects] and
    [getHighestPriorityWarning], driven by a 300 ms interval.  The file holds two variants of the component; unless
    said otherwise the definitions follow the first one (lines 1-375), the
    one with the lighting check and the label list.

    Conventions of the embedding.
    - The [useState] cells and [localStorage] form one record, [AppState];
      every closure becomes a function from an environment and a state to a
      state (and a result, when the closure has one).  A [setX(v)] call is
      the update [setX v].
    - What the outside world answers during one call (the perception models,
      the webcam element, the measured brightness) is the record [Env].
    - JavaScript numbers are modelled by exact rationals: comparisons and
      absolute differences are the mathematical ones, rounding of IEEE
      doubles and [NaN] are outside the model.
    - An [async] closure is modelled as running to completion when it is
      called, so the calls of one interval tick take effect in call order.
      A closure reads the state of the render that created it: within one
      call every read sees the state the call started from.
    - [captureFace] stays suspended for at least 300 ms with the button still
      enabled.  [run] is the schedule in which every request finishes before
      the next event; [play] is the finer one, in which a request is split at
      that suspension and other events, further requests included, come in
      between. *)

From Stdlib Require Import QArith Qabs Lqa.
From stdpp Require Import gmap strings list.

Local Open Scope Q_scope.

(** ** Numbers *)

(** [a < b] on JavaScript numbers; [a > b] is [num_lt b a]. *)
Definition num_lt (a b : Q) : bool := negb (Qle_bool b a).

(** ** Data *)

(** A landmark or a pixel position, [{ x, y }]. *)
Record Point : Type := mkPoint { pt_x : Q; pt_y : Q }.

(** One entry of [result.landmarks]: [landmark[0]] is the nose tip, the
    remaining landmarks of the skeleton are not read by the component. *)
Record Pose : Type := mkPose { nose : Point; others : list Point }.

(** A face descriptor (a [Float32Array] of embedding coordinates). *)
Definition Descriptor : Type := list Q.

(** [detection.box] of a face-api detection. *)
Record Box : Type := mkBox { box_x : Q; box_y : Q; box_width : Q; box_height : Q }.

(** One entry of [detectAllFaces(...).withFaceLandmarks().withFaceDescriptors()];
    [verifyFace] tests [descriptor] for presence, hence the option. *)
Record Detection : Type := mkDetection { box : Box; descriptor : option Descriptor }.

(** The result of [detectSingleFace(...).withFaceLandmarks().withFaceDescriptor()]
    when a face is found: its descriptor and [landmarks.positions]. *)
Record SingleFace : Type := mkSingleFace { sf_descriptor : Descriptor; sf_positions : list Point }.

(** The webcam's video element. *)
Record Video : Type := mkVideo { readyState : Z; videoWidth : Q; videoHeight : Q }.

(** Values kept in [localStorage] (as JSON text in the browser; [JSON.parse]
    gives back what [JSON.stringify] was given). *)
Inductive Stored : Type :=
| StoredPoint (p : Point)
| StoredPoints (ps : list Point).

Definition referenceNosePosition : string := "referenceNosePosition".
Definition faceLandmarks : string := "faceLandmarks".

(** The component state: the [useState] cells the monitoring logic reads or
    writes, and the browser's [localStorage]. *)
Record AppState : Type := mkAppState {
  capturedFace : option Descriptor;
  isFaceCaptured : bool;
  warningMessage : string;
  headMovementStatus : string;
  faceDetected : bool;
  multiplePeopleDetected : bool;
  horizontalMovement : Q;
  verticalMovement : Q;
  detectedNotAllowedObjects : list string;
  faceCaptured : bool;
  unauthorizedPerson : bool;
  localStorage : gmap string Stored
}.

(** What the collaborators answer during one call. *)
Record Env : Type := mkEnv {
  poseLandmarker : bool;            (* the pose model has been created *)
  objectDetector : bool;            (* the object model has been created *)
  faceapiLoaded : bool;             (* [faceapi.nets.ssdMobilenetv1.params] *)
  webcam : option Video;            (* [webcamRef.current] and its video *)
  poseResult : list Pose;           (* [result.landmarks] *)
  allFaces : list Detection;        (* [detectAllFaces] *)
  singleFace : option SingleFace;   (* [detectSingleFace] *)
  brightness : Q;                   (* [getBrightness(video)] *)
  objectResult : list (option string) (* [categories[0]?.categoryName] *)
}.

(** *** State updates, one per [useState] setter *)

Definition setCapturedFace (v : option Descriptor) (s : AppState) : AppState :=
  mkAppState v (isFaceCaptured s) (warningMessage s) (headMovementStatus s)
    (faceDetected s) (multiplePeopleDetected s) (horizontalMovement s)
    (verticalMovement s) (detectedNotAllowedObjects s) (faceCaptured s)
    (unauthorizedPerson s) (localStorage s).

Definition setIsFaceCaptured (v : bool) (s : AppState) : AppState :=
  mkAppState (capturedFace s) v (warningMessage s) (headMovementStatus s)
    (faceDetected s) (multiplePeopleDetected s) (horizontalMovement s)
    (verticalMovement s) (detectedNotAllowedObjects s) (faceCaptured s)
    (unauthorizedPerson s) (localStorage s).

Definition setWarningMessage (v : string) (s : AppState) : AppState :=
  mkAppState (capturedFace s) (isFaceCaptured s) v (headMovementStatus s)
    (faceDetected s) (multiplePeopleDetected s) (horizontalMovement s)
    (verticalMovement s) (detectedNotAllowedObjects s) (faceCaptured s)
    (unauthorizedPerson s) (localStorage s).

Definition setHeadMovementStatus (v : string) (s : AppState) : AppState :=
  mkAppState (capturedFace s) (isFaceCaptured s) (warningMessage s) v
    (faceDetected s) (multiplePeopleDetected s) (horizontalMovement s)
    (verticalMovement s) (detectedNotAllowedObjects s) (faceCaptured s)
    (unauthorizedPerson s) (localStorage s).

Definition setFaceDetected (v : bool) (s : AppState) : AppState :=
  mkAppState (capturedFace s) (isFaceCaptured s) (warningMessage s)
    (headMovementStatus s) v (multiplePeopleDetected s) (horizontalMovement s)
    (verticalMovement s) (detectedNotAllowedObjects s) (faceCaptured s)
    (unauthorizedPerson s) (localStorage s).

Definition setMultiplePeopleDetected (v : bool) (s : AppState) : AppState :=
  mkAppState (capturedFace s) (isFaceCaptured s) (warningMessage s)
    (headMovementStatus s) (faceDetected s) v (horizontalMovement s)
    (verticalMovement s) (detectedNotAllowedObjects s) (faceCaptured s)
    (unauthorizedPerson s) (localStorage s).

Definition setHorizontalMovement (v : Q) (s : AppState) : AppState :=
  mkAppState (capturedFace s) (isFaceCaptured s) (warningMessage s)
    (headMovementStatus s) (faceDetected s) (multiplePeopleDetected s) v
    (verticalMovement s) (detectedNotAllowedObjects s) (faceCaptured s)
    (unauthorizedPerson s) (localStorage s).

Definition setVerticalMovement (v : Q) (s : AppState) : AppState :=
  mkAppState (capturedFace s) (isFaceCaptured s) (warningMessage s)
    (headMovementStatus s) (faceDetected s) (multiplePeopleDetected s)
    (horizontalMovement s) v (detectedNotAllowedObjects s) (faceCaptured s)
    (unauthorizedPerson s) (localStorage s).

Definition setDetectedNotAllowedObjects (v : list string) (s : AppState) : AppState :=
  mkAppState (capturedFace s) (isFaceCaptured s) (warningMessage s)
    (headMovementStatus s) (faceDetected s) (multiplePeopleDetected s)
    (horizontalMovement s) (verticalMovement s) v (faceCaptured s)
    (unauthorizedPerson s) (localStorage s).

Definition setFaceCaptured (v : bool) (s : AppState) : AppState :=
  mkAppState (capturedFace s) (isFaceCaptured s) (warningMessage s)
    (headMovementStatus s) (faceDetected s) (multiplePeopleDetected s)
    (horizontalMovement s) (verticalMovement s) (detectedNotAllowedObjects s) v
    (unauthorizedPerson s) (localStorage s).

Definition setUnauthorizedPerson (v : bool) (s : AppState) : AppState :=
  mkAppState (capturedFace s) (isFaceCaptured s) (warningMessage s)
    (headMovementStatus s) (faceDetected s) (multiplePeopleDetected s)
    (horizontalMovement s) (verticalMovement s) (detectedNotAllowedObjects s)
    (faceCaptured s) v (localStorage s).

(** Replace the browser store. *)
Definition setLocalStorage (store : gmap string Stored) (s : AppState) : AppState :=
  mkAppState (capturedFace s) (isFaceCaptured s) (warningMessage s)
    (headMovementStatus s) (faceDetected s) (multiplePeopleDetected s)
    (horizontalMovement s) (verticalMovement s) (detectedNotAllowedObjects s)
    (faceCaptured s) (unauthorizedPerson s) store.

(** [localStorage.setItem(key, JSON.stringify(v))]. *)
Definition setItem (key : string) (v : Stored) (s : AppState) : AppState :=
  setLocalStorage (<[key := v]> (localStorage s)) s.

(** The state a freshly mounted component starts from; [localStorage]
    survives reloads, so it is whatever the browser holds. *)
Definition initialState (store : gmap string Stored) : AppState :=
  mkAppState None false "" "" false false 0 0 [] false false store.

(** ** [detectPose] (lines 214-293) *)

Definition centerX : Q := 0.5.
Definition centerY : Q := 0.5.
Definition tolerance : Q := 0.08.

(** The right-hand side of the assignment to [isFaceCentered] (lines 261-263). *)
Definition noseCentered (n : Point) : bool :=
  num_lt (Qabs (pt_x n - centerX)) tolerance &&
  num_lt (Qabs (pt_y n - centerY)) tolerance.

(** [JSON.parse(localStorage.getItem('referenceNosePosition'))], or [null];
    only [detectPose] writes this key, and it writes points. *)
Definition storedReference (store : gmap string Stored) : option Point :=
  match store !! referenceNosePosition with
  | Some (StoredPoint p) => Some p
  | _ => None
  end.

(** The variables the [forEach] callback assigns: three locals of
    [detectPose] and the store. *)
Record PoseLocals : Type := mkPoseLocals {
  loc_isFaceCentered : bool;
  loc_horizontalMovement : Q;
  loc_verticalMovement : Q;
  loc_store : gmap string Stored
}.

(** The new reference and store after lines 265-271. *)
Definition refreshReference (isCentered : bool) (n : Point) (store : gmap string Stored)
  : Point * gmap string Stored :=
  match storedReference store with
  | Some r =>
      if isCentered
      then (mkPoint (pt_x n) (pt_y n),
            <[referenceNosePosition := StoredPoint (mkPoint (pt_x n) (pt_y n))]> store)
      else (r, store)
  | None =>
      (mkPoint (pt_x n) (pt_y n),
       <[referenceNosePosition := StoredPoint (mkPoint (pt_x n) (pt_y n))]> store)
  end.

(** One run of the [forEach] callback (lines 254-278). *)
Definition poseStep (acc : PoseLocals) (landmark : Pose) : PoseLocals :=
  let n := nose landmark in
  let isCentered := noseCentered n in
  let '(referenceNose, store) := refreshReference isCentered n (loc_store acc) in
  mkPoseLocals isCentered
    (Qabs (pt_x n - pt_x referenceNose))
    (Qabs (pt_y n - pt_y referenceNose))
    store.

(** The guard of line 215. *)
Definition poseReady (env : Env) : bool :=
  poseLandmarker env &&
  match webcam env with
  | Some video => Z.eqb (readyState video) 4
  | None => false
  end.

(** [detectPose]: the new state and the value the promise resolves to
    ([None] is [undefined], when the guard fails). *)
Definition detectPose (env : Env) (s : AppState) : AppState * option bool :=
  if poseReady env then
    let landmarks := poseResult env in
    let start := mkPoseLocals false 0 0 (localStorage s) in
    let nonEmpty := (0 <? length landmarks)%nat in
    let locals := if nonEmpty then fold_left poseStep landmarks start else start in
    let found := nonEmpty in
    let multiple := nonEmpty && (1 <? length landmarks)%nat in
    (setVerticalMovement (loc_verticalMovement locals)
       (setHorizontalMovement (loc_horizontalMovement locals)
          (setMultiplePeopleDetected multiple
             (setFaceDetected found
                (setLocalStorage (loc_store locals) s)))),
     Some (loc_isFaceCentered locals))
  else (s, None).

(** JavaScript truthiness of what [detectPose] resolves to. *)
Definition truthy (r : option bool) : bool :=
  match r with
  | Some b => b
  | None => false
  end.

(** ** [captureFace] (lines 65-113) *)

Definition msgAlign : string := "⚠️ Align your face in the center before capturing!".
Definition msgLowLight : string := "⚠️ Low lighting detected! Try increasing brightness.".
Definition msgHighLight : string := "⚠️ Too much brightness! Move to a less illuminated area.".
Definition msgCaptured : string := "✅ Face captured successfully!".
Definition msgImproveLighting : string := "⚠️ Face not detected! Try improving lighting.".
Definition msgNotCentered : string := "⚠️ Face not centered. Please align properly.".
Definition msgNotVisible : string := "❌ Face not detected! Ensure your face is visible and clear.".

(** The way [captureFace] was left.  The closure resolves to [undefined] on
    every path; the tag names the path taken: the early return of line 66,
    the return of line 71, a missing webcam (line 74), the returns of lines
    83 and 86, the successful branch of line 93 and its [else]. *)
Inductive CaptureExit : Type :=
| AlreadyCaptured
| NoCenteredFace
| NoWebcam
| PoorLighting
| Captured
| NoFaceDetected.

(** Lines 94-101: store the descriptor, raise both flags, persist the
    landmark positions, report success. *)
Definition storeCapture (face : SingleFace) (s : AppState) : AppState :=
  setHeadMovementStatus msgCaptured
    (setItem faceLandmarks (StoredPoints (sf_positions face))
       (setFaceCaptured true
          (setIsFaceCaptured true
             (setCapturedFace (Some (sf_descriptor face)) s)))).

(** Lines 104-110: the message when no face is found. *)
Definition notFoundMessage (level : Q) (isCentered : bool) : string :=
  if num_lt level 70 then msgImproveLighting
  else if negb isCentered then msgNotCentered
  else msgNotVisible.

Definition captureFace (env : Env) (s : AppState) : AppState * CaptureExit :=
  if faceCaptured s then (s, AlreadyCaptured)
  else
    let '(s1, isCentered) := detectPose env s in
    if negb (truthy isCentered)
    then (setHeadMovementStatus msgAlign s1, NoCenteredFace)
    else
      match webcam env with
      | None => (s1, NoWebcam)
      | Some video =>
          let level := brightness env in
          if num_lt level 50
          then (setHeadMovementStatus msgLowLight s1, PoorLighting)
          else if num_lt 200 level
          then (setHeadMovementStatus msgHighLight s1, PoorLighting)
          else
            match singleFace env with
            | Some face => (storeCapture face s1, Captured)
            | None =>
                (setHeadMovementStatus (notFoundMessage level (truthy isCentered)) s1,
                 NoFaceDetected)
            end
      end.

(** The second variant of the component (lines 377-690) differs in
    [captureFace], [detectObjects] and the object branch of the warning
    cascade.  Its [captureFace] (lines 439-467) has no brightness check. *)
Module SecondVariant.

Definition msgTryAgain : string := "❌ No face detected. Please try again.".

Definition captureFace (env : Env) (s : AppState) : AppState * CaptureExit :=
  if faceCaptured s then (s, AlreadyCaptured)
  else
    let '(s1, isCentered) := detectPose env s in
    if negb (truthy isCentered)
    then (setHeadMovementStatus msgAlign s1, NoCenteredFace)
    else
      match webcam env with
      | None => (s1, NoWebcam)
      | Some video =>
          match singleFace env with
          | Some face => (storeCapture face s1, Captured)
          | None => (setHeadMovementStatus msgTryAgain s1, NoFaceDetected)
          end
      end.

End SecondVariant.

(** ** [detectObjects] (lines 296-311) *)

Definition notAllowedClasses : list string :=
  ["cell phone"; "tablet"; "book"; "remote"; "backpack"; "mouse"; "tv";
   "keyboard"; "laptop"].

(** [toLowerCase] on the ASCII labels the detector emits. *)
Definition toLowerAscii (c : Ascii.ascii) : Ascii.ascii :=
  let n := Ascii.N_of_ascii c in
  if ((65 <=? n) && (n <=? 90))%N then Ascii.ascii_of_N (n + 32) else c.

Fixpoint toLowerCase (label : string) : string :=
  match label with
  | EmptyString => EmptyString
  | String c rest => String (toLowerAscii c) (toLowerCase rest)
  end.

(** [notAllowedClasses.includes(objectName)]; [undefined] is never included. *)
Definition includes (classes : list string) (objectName : option string) : bool :=
  match objectName with
  | Some name => existsb (String.eqb name) classes
  | None => false
  end.

Definition objectsReady (env : Env) : bool :=
  objectDetector env &&
  match webcam env with
  | Some video => Z.eqb (readyState video) 4
  | None => false
  end.

Definition detectObjects (env : Env) (s : AppState) : AppState :=
  if objectsReady env then
    let names := map (option_map toLowerCase) (objectResult env) in
    let detectedObjects :=
      omap (fun name => name) (filter (fun name => includes notAllowedClasses name = true) names) in
    setDetectedNotAllowedObjects detectedObjects s
  else s.

(** ** [getHighestPriorityWarning] (lines 314-323) *)

Definition msgMultiplePeople : string := "🚨 Critical Warning: More than one person detected!".
Definition msgUnauthorized : string := "🚨 Warning: Unauthorized person detected!".
Definition msgNoFace : string := "⚠️ Warning: No face detected!".
Definition msgHeadMovement : string := "⚠️ Head movement detected!".

(** The template literal of line 319. *)
Definition msgObjects (labels : list string) : string :=
  "🚨 " +:+ String.concat ", " labels +:+ " detected! Please remove it.".

Definition getHighestPriorityWarning (s : AppState) : string :=
  if multiplePeopleDetected s then msgMultiplePeople
  else if unauthorizedPerson s then msgUnauthorized
  else if negb (faceDetected s) then msgNoFace
  else if (0 <? length (detectedNotAllowedObjects s))%nat
  then msgObjects (detectedNotAllowedObjects s)
  else if num_lt 0.02 (horizontalMovement s) || num_lt 0.02 (verticalMovement s)
  then msgHeadMovement
  else "".

(** ** [verifyFace] (lines 150-212) and the interval (lines 325-339) *)

(** The quantity the [reduce] callback compares (lines 187-190): the
    Manhattan distance from the centre of the box to the centre of the frame. *)
Definition manhattan (video : Video) (d : Detection) : Q :=
  Qabs (box_x (box d) + box_width (box d) / 2 - videoWidth video / 2) +
  Qabs (box_y (box d) + box_height (box d) / 2 - videoHeight video / 2).

(** The [reduce] callback: [curr] when it is strictly closer, else [prev]. *)
Definition closer (video : Video) (prev curr : Detection) : Detection :=
  if num_lt (manhattan video curr) (manhattan video prev) then curr else prev.

(** Lines 184-193.  [detections[0]] is [undefined] on an empty array; a
    [reduce] without initial value starts from the first element. *)
Definition centeredFace (video : Video) (detections : list Detection) : option Detection :=
  match detections with
  | [] => None
  | first :: rest =>
      Some (if (1 <? length detections)%nat
            then fold_left (closer video) rest first
            else first)
  end.

Section Verification.

(** [faceapi.euclideanDistance], a function of the face-api library. *)
Variable euclideanDistance : Descriptor -> Descriptor -> Q.

(** On an empty detection list line 196 reads a property of [undefined];
    the [TypeError] is caught at line 209 and no state is written. *)
Definition verifyFace (env : Env) (s : AppState) : AppState :=
  match capturedFace s, webcam env with
  | Some baseline, Some video =>
      if negb (faceapiLoaded env) then s
      else if negb (Z.eqb (readyState video) 4) then s
      else
        match centeredFace video (allFaces env) with
        | None => s
        | Some face =>
            match descriptor face with
            | None => setFaceDetected false s
            | Some d =>
                setUnauthorizedPerson (num_lt 0.6 (euclideanDistance baseline d))
                  (setFaceDetected true s)
            end
        end
  | _, _ => s
  end.

(** One run of the interval callback.  [isFaceCaptured] and the fields read
    by [getHighestPriorityWarning] are those of the render that installed
    the interval, that is of the state before the tick. *)
Definition tick (env : Env) (s : AppState) : AppState :=
  let s1 := fst (detectPose env s) in
  if isFaceCaptured s
  then setWarningMessage (getHighestPriorityWarning s)
         (detectObjects env (verifyFace env s1))
  else s1.

(** What happens to a mounted component: the interval fires, or the capture
    button is pressed.  Here a capture request runs from the press to its
    last write before the next event starts; [Action] and [play] below drop
    that restriction. *)
Inductive Event : Type :=
| Tick (env : Env)
| RequestCapture (env : Env).

Definition step (s : AppState) (e : Event) : AppState :=
  match e with
  | Tick env => tick env s
  | RequestCapture env => fst (captureFace env s)
  end.

Definition run (events : list Event) (s : AppState) : AppState :=
  fold_left step events s.

End Verification.

(** ** Capture requests that overlap *)

(** [captureFace] from line 69 on: what runs once the awaited [detectPose]
    has resolved to [isCentered], at least 300 ms after the request started,
    on the state the component has by then.  Nothing in it reads
    [faceCaptured] again. *)
Definition captureFinish (isCentered : option bool) (env : Env) (s : AppState)
  : AppState * CaptureExit :=
  if negb (truthy isCentered)
  then (setHeadMovementStatus msgAlign s, NoCenteredFace)
  else
    match webcam env with
    | None => (s, NoWebcam)
    | Some video =>
        let level := brightness env in
        if num_lt level 50
        then (setHeadMovementStatus msgLowLight s, PoorLighting)
        else if num_lt 200 level
        then (setHeadMovementStatus msgHighLight s, PoorLighting)
        else
          match singleFace env with
          | Some face => (storeCapture face s, Captured)
          | None =>
              (setHeadMovementStatus (notFoundMessage level (truthy isCentered)) s,
               NoFaceDetected)
          end
    end.

(** A mounted component together with its suspended capture requests, each
    holding the value its [detectPose] resolved to. *)
Record Session : Type := mkSession {
  app : AppState;
  pending : list (option bool)
}.

(** What happens to a session: the interval fires; the capture button is
    pressed, which runs line 66 on the current state and, past it, the body
    of [detectPose] before the request is suspended; or the suspended
    request number [n] resumes and runs to its end. *)
Inductive Action : Type :=
| Interval (env : Env)
| Press (env : Env)
| Resume (n : nat) (env : Env).

Definition act (euclid : Descriptor -> Descriptor -> Q) (session : Session) (a : Action)
  : Session :=
  match a with
  | Interval env => mkSession (tick euclid env (app session)) (pending session)
  | Press env =>
      if faceCaptured (app session) then session
      else mkSession (fst (detectPose env (app session)))
             (pending session ++ [snd (detectPose env (app session))])
  | Resume n env =>
      match pending session !! n with
      | Some isCentered =>
          mkSession (fst (captureFinish isCentered env (app session)))
            (delete n (pending session))
      | None => session
      end
  end.

Definition play (euclid : Descriptor -> Descriptor -> Q) (actions : list Action)
    (session : Session) : Session :=
  fold_left (act euclid) actions session.

(** An event of [run] as actions: a capture request is a press followed at
    once by its own resumption. *)
Definition serial (e : Event) : list Action :=
  match e with
  | Tick env => [Interval env]
  | RequestCapture env => [Press env; Resume 0 env]
  end.

(** ** [getBrightness] (lines 116-146) *)

(** One pixel of [imageData.data], a [Uint8ClampedArray] holding four bytes
    per pixel: red, green, blue, alpha. *)
Record Pixel : Type := mkPixel { red : Z; green : Z; blue : Z; alpha : Z }.

(** The [brightness] of one iteration (line 135). *)
Definition pixelBrightness (p : Pixel) : Q := inject_Z (red p + green p + blue p) / 3.

(** [totalBrightness] after the loop of lines 131-137. *)
Definition totalBrightness (data : list Pixel) : Q :=
  fold_left (fun total p => total + pixelBrightness p) data 0.

(** What the promise resolves to: the average over the pixels
    ([data.length / 4] of them), or 100 when [getImageData] throws
    ([None]). *)
Definition getBrightness (image : option (list Pixel)) : Q :=
  match image with
  | Some data => totalBrightness data / inject_Z (Z.of_nat (length data))
  | None => 100
  end.

(** ** The object rule in the second variant (lines 615-638) *)

Module SecondVariantObjects.

(** The cell [detectedNotAllowedObjects] of the second variant: the array
    [useState([])] starts it with, or the boolean [detectObjects] writes. *)
Inductive ObjectsCell : Type :=
| InitialArray
| Flag (b : bool).

(** JavaScript truthiness of the cell: an array is truthy, even when empty. *)
Definition cellTruthy (cell : ObjectsCell) : bool :=
  match cell with
  | InitialArray => true
  | Flag b => b
  end.

Definition msgObjectNotAllowed : string := "🚨 Object Not Allowed! Please remove it.".

(** Lines 615-628: keep the detections whose lower-cased first category is
    disallowed, and store whether any is left. *)
Definition detectObjects (env : Env) (cell : ObjectsCell) : ObjectsCell :=
  if objectsReady env then
    let detectedObjects :=
      filter (fun name => includes notAllowedClasses (option_map toLowerCase name) = true)
        (objectResult env) in
    Flag (0 <? length detectedObjects)%nat
  else cell.

(** Lines 631-638; the other cells are those of [AppState]. *)
Definition getHighestPriorityWarning (s : AppState) (cell : ObjectsCell) : string :=
  if multiplePeopleDetected s then msgMultiplePeople
  else if unauthorizedPerson s then msgUnauthorized
  else if negb (faceDetected s) then msgNoFace
  else if cellTruthy cell then msgObjectNotAllowed
  else if num_lt 0.02 (horizontalMovement s) || num_lt 0.02 (verticalMovement s)
  then msgHeadMovement
  else "".

End SecondVariantObjects.

(** ** Scenes used to exercise the model *)

(** A webcam whose video is fully loaded ([readyState === 4]). *)
Definition readyVideo : Video := mkVideo 4 640 480.

(** Everything loaded; the given poses and faces in the frame, the given
    answer of the single-face detector, the given brightness; no objects. *)
Definition scene (poses : list Pose) (faces : list Detection)
    (single : option SingleFace) (level : Q) : Env :=
  mkEnv true true true (Some readyVideo) poses faces single level [].

(** Poses only, at medium brightness. *)
Definition posesOnly (poses : list Pose) : Env := scene poses [] None 100.

(** A face the single-face detector may return. *)
Definition candidateFace : SingleFace := mkSingleFace [0.1] [mkPoint 320 240].

Definition centredPose : Pose := mkPose (mkPoint 0.5 0.5) [].
Definition asidePose : Pose := mkPose (mkPoint 0.9 0.9) [].

(** The Euclidean distance of descriptors with a single coordinate, to run
    [verifyFace] on concrete descriptors. *)
Definition coordinateDistance (a b : Descriptor) : Q := Qabs (hd 0 a - hd 0 b).

(** A 100 by 100 box whose centre is [dx] pixels to the right of the centre
    of [readyVideo]. *)
Definition boxAt (dx : Q) : Box := mkBox (270 + dx) 190 100 100.

(** The test-taker (the descriptor of [candidateFace]), a stranger at
    distance 0.9 from it, and a detection without descriptor. *)
Definition ownFace : Detection := mkDetection (boxAt 0) (Some [0.1]).
Definition strangerFace : Detection := mkDetection (boxAt 0) (Some [1.0]).
Definition blankFace : Detection := mkDetection (boxAt 0) None.

(** Two faces at Manhattan distances 0.1 and 0.3 from the frame centre. *)
Definition nearFace : Detection := mkDetection (boxAt 0.1) (Some [0.1]).
Definition farFace : Detection := mkDetection (boxAt 0.3) (Some [1.0]).

(** The state right after a successful capture in a fresh session. *)
Definition capturedState : AppState :=
  fst (captureFace (scene [centredPose] [] (Some candidateFace) 100) (initialState ∅)).

(** Frames of a monitored session: the test-taker alone, a stranger alone,
    a face without descriptor, each with one centred pose. *)
Definition captureScene : Env := scene [centredPose] [] (Some candidateFace) 100.
Definition ownScene : Env := scene [centredPose] [ownFace] None 100.
Definition strangerScene : Env := scene [centredPose] [strangerFace] None 100.
Definition blankScene : Env := scene [centredPose] [blankFace] None 100.

(** A second capture attempt, in front of a stranger the detector accepts. *)
Definition strangerCapture : Env := scene [centredPose] [] (Some (mkSingleFace [1.0] [])) 100.

(** The fields [getHighestPriorityWarning] reads. *)
Definition sameWarningFields (s s' : AppState) : Prop :=
  multiplePeopleDetected s = multiplePeopleDetected s' /\
  unauthorizedPerson s = unauthorizedPerson s' /\
  faceDetected s = faceDetected s' /\
  detectedNotAllowedObjects s = detectedNotAllowedObjects s' /\
  horizontalMovement s = horizontalMovement s' /\
  verticalMovement s = verticalMovement s'.

(** * Properties *)

(** ** Comparisons *)

Lemma num_lt_iff (a b : Q) : num_lt a b = true <-> a < b.
Proof.
  unfold num_lt. rewrite negb_true_iff. split.
  - intros H. apply Qnot_le_lt. intros Hle.
    apply Qle_bool_iff in Hle. congruence.
  - intros H. destruct (Qle_bool b a) eqn:E; [|reflexivity].
    apply Qle_bool_iff in E. exfalso. apply (Qlt_not_le _ _ H E).
Qed.

Lemma num_lt_false_iff (a b : Q) : num_lt a b = false <-> b <= a.
Proof.
  unfold num_lt. rewrite negb_false_iff. apply Qle_bool_iff.
Qed.

Lemma num_lt_irrefl (a b : Q) : a == b -> num_lt a b = false.
Proof. intros H. apply num_lt_false_iff. rewrite H. apply Qle_refl. Qed.

(** ** The centring predicate *)

Lemma noseCentered_abs (n : Point) :
  noseCentered n = true <->
  Qabs (pt_x n - 0.5) < 0.08 /\ Qabs (pt_y n - 0.5) < 0.08.
Proof.
  unfold noseCentered, centerX, centerY, tolerance.
  rewrite andb_true_iff, !num_lt_iff. reflexivity.
Qed.

Lemma abs_within (a : Q) : Qabs (a - 0.5) < 0.08 <-> 0.42 < a /\ a < 0.58.
Proof.
  rewrite Qabs_Qlt_condition. split; intros [H1 H2]; split; lra.
Qed.

(** The value [detectPose] resolves to when exactly one pose is detected. *)
Lemma detectPose_single (env : Env) (s : AppState) (p : Pose) :
  poseReady env = true -> poseResult env = [p] ->
  snd (detectPose env s) = Some (noseCentered (nose p)).
Proof.
  intros Hready Hres. unfold detectPose. rewrite Hready, Hres. simpl.
  unfold poseStep. destruct (refreshReference _ _ _). reflexivity.
Qed.

(** C3. A nose landmark is centred exactly when both of its coordinates are
    strictly less than 0.08 away from 0.5, that is strictly between 0.42 and
    0.58; a coordinate at distance exactly 0.08 is not centred; and with one
    detected pose this is the value of [isFaceCentered] that [detectPose]
    resolves to. *)
Theorem noseCentered_tolerance (n : Point) :
  (noseCentered n = true <->
     Qabs (pt_x n - 0.5) < 0.08 /\ Qabs (pt_y n - 0.5) < 0.08) /\
  (noseCentered n = true <->
     (0.42 < pt_x n /\ pt_x n < 0.58) /\ (0.42 < pt_y n /\ pt_y n < 0.58)) /\
  (noseCentered n = false <->
     0.08 <= Qabs (pt_x n - 0.5) \/ 0.08 <= Qabs (pt_y n - 0.5)) /\
  (Qabs (pt_x n - 0.5) == 0.08 \/ Qabs (pt_y n - 0.5) == 0.08 ->
     noseCentered n = false) /\
  (forall env s rest, poseReady env = true ->
     poseResult env = [mkPose n rest] ->
     snd (detectPose env s) = Some (noseCentered n)).
Proof.
  assert (Hfalse : noseCentered n = false <->
            0.08 <= Qabs (pt_x n - 0.5) \/ 0.08 <= Qabs (pt_y n - 0.5)).
  { unfold noseCentered, centerX, centerY, tolerance.
    rewrite andb_false_iff, !num_lt_false_iff. reflexivity. }
  split; [apply noseCentered_abs|].
  split; [rewrite noseCentered_abs, !abs_within; reflexivity|].
  split; [exact Hfalse|].
  split.
  - intros [H|H]; apply Hfalse; [left|right]; rewrite H; apply Qle_refl.
  - intros env s rest Hready Hres.
    apply (detectPose_single env s (mkPose n rest) Hready Hres).
Qed.

(** The frame centre is centred; the point (0.42, 0.5), at distance 0.08 on
    the horizontal axis, is not. *)
Lemma noseCentered_tolerance_witness :
  noseCentered (mkPoint 0.5 0.5) = true /\ noseCentered (mkPoint 0.42 0.5) = false.
Proof.
  split.
  - apply (proj1 (noseCentered_tolerance (mkPoint 0.5 0.5))).
    split; reflexivity.
  - apply (proj1 (proj2 (proj2 (proj2 (noseCentered_tolerance (mkPoint 0.42 0.5)))))).
    left. reflexivity.
Defined.

(** ** The warning cascade *)

Lemma length_positive {A : Type} (l : list A) : (0 <? length l)%nat = true <-> l <> [].
Proof.
  destruct l as [|a l]; cbn.
  - split; [discriminate | intros H; now contradict H].
  - split; [discriminate | reflexivity].
Qed.

(** C1. The warning is a function of six fields of the state only, and it is
    decided top to bottom, first match winning: several people; else an
    unauthorised person; else no face; else a non-empty list of forbidden
    labels, which the message enumerates; else a horizontal or vertical
    movement above 0.02; else the empty string. *)
Theorem getHighestPriorityWarning_total_order (s : AppState) :
  (multiplePeopleDetected s = true ->
     getHighestPriorityWarning s = msgMultiplePeople) /\
  (multiplePeopleDetected s = false -> unauthorizedPerson s = true ->
     getHighestPriorityWarning s = msgUnauthorized) /\
  (multiplePeopleDetected s = false -> unauthorizedPerson s = false ->
   faceDetected s = false ->
     getHighestPriorityWarning s = msgNoFace) /\
  (multiplePeopleDetected s = false -> unauthorizedPerson s = false ->
   faceDetected s = true -> detectedNotAllowedObjects s <> [] ->
     getHighestPriorityWarning s = msgObjects (detectedNotAllowedObjects s)) /\
  (multiplePeopleDetected s = false -> unauthorizedPerson s = false ->
   faceDetected s = true -> detectedNotAllowedObjects s = [] ->
   0.02 < horizontalMovement s \/ 0.02 < verticalMovement s ->
     getHighestPriorityWarning s = msgHeadMovement) /\
  (multiplePeopleDetected s = false -> unauthorizedPerson s = false ->
   faceDetected s = true -> detectedNotAllowedObjects s = [] ->
   horizontalMovement s <= 0.02 -> verticalMovement s <= 0.02 ->
     getHighestPriorityWarning s = "") /\
  (forall s', sameWarningFields s s' ->
     getHighestPriorityWarning s' = getHighestPriorityWarning s).
Proof.
  unfold getHighestPriorityWarning.
  repeat split.
  - intros ->. reflexivity.
  - intros -> ->. reflexivity.
  - intros -> -> ->. reflexivity.
  - intros -> -> -> Hobj. apply length_positive in Hobj. simpl. rewrite Hobj.
    reflexivity.
  - intros -> -> -> -> Hmove. simpl.
    assert (H : num_lt 0.02 (horizontalMovement s) || num_lt 0.02 (verticalMovement s) = true).
    { apply orb_true_iff. rewrite !num_lt_iff. exact Hmove. }
    rewrite H. reflexivity.
  - intros -> -> -> -> Hh Hv. simpl.
    apply num_lt_false_iff in Hh, Hv. rewrite Hh, Hv. reflexivity.
  - intros s' (H1 & H2 & H3 & H4 & H5 & H6).
    rewrite H1, H2, H3, H4, H5, H6. reflexivity.
Qed.

(** Two poses in the frame, an unauthorised face and a forbidden object all
    at once: the message is the one about several people. *)
Lemma getHighestPriorityWarning_total_order_witness :
  getHighestPriorityWarning
    (mkAppState (Some [0.1]) true "" "" true true 0.3 0 ["cell phone"] true true ∅)
  = msgMultiplePeople.
Proof.
  apply (proj1 (getHighestPriorityWarning_total_order
    (mkAppState (Some [0.1]) true "" "" true true 0.3 0 ["cell phone"] true true ∅))).
  reflexivity.
Defined.

(** The five warnings are different strings and none is empty, so the
    message tells which rule fired. *)
Lemma warnings_distinct (labels : list string) :
  msgMultiplePeople <> msgUnauthorized /\
  msgUnauthorized <> msgNoFace /\
  msgNoFace <> msgHeadMovement /\
  msgObjects labels <> "" /\
  msgHeadMovement <> "".
Proof.
  repeat split; discriminate.
Qed.

(** ** The pose loop *)

Lemma poseStep_flag (acc : PoseLocals) (p : Pose) :
  loc_isFaceCentered (poseStep acc p) = noseCentered (nose p).
Proof.
  unfold poseStep. destruct (refreshReference _ _ _). reflexivity.
Qed.

Lemma point_eta (n : Point) : mkPoint (pt_x n) (pt_y n) = n.
Proof. destruct n; reflexivity. Qed.

Lemma storedReference_insert (n : Point) (store : gmap string Stored) :
  storedReference (<[referenceNosePosition := StoredPoint n]> store) = Some n.
Proof.
  unfold storedReference. rewrite lookup_insert_eq. reflexivity.
Qed.

(** A centred pose becomes the stored reference. *)
Lemma poseStep_reference_refreshed (acc : PoseLocals) (p : Pose) :
  noseCentered (nose p) = true ->
  storedReference (loc_store (poseStep acc p)) = Some (nose p).
Proof.
  intros Hc. unfold poseStep, refreshReference. rewrite Hc, point_eta.
  destruct (storedReference (loc_store acc)); simpl;
    apply storedReference_insert.
Qed.

(** With a reference in the store, a pose that is not centred leaves the
    store alone. *)
Lemma poseStep_reference_kept (acc : PoseLocals) (p : Pose) (r : Point) :
  noseCentered (nose p) = false ->
  storedReference (loc_store acc) = Some r ->
  loc_store (poseStep acc p) = loc_store acc.
Proof.
  intros Hc Hr. unfold poseStep, refreshReference. rewrite Hc, Hr.
  reflexivity.
Qed.

Lemma poseLoop_reference_kept (poses : list Pose) (acc : PoseLocals) (r : Point) :
  Forall (fun p => noseCentered (nose p) = false) poses ->
  storedReference (loc_store acc) = Some r ->
  storedReference (loc_store (fold_left poseStep poses acc)) = Some r.
Proof.
  intros Hall. revert acc.
  induction Hall as [|p poses Hp _ IH]; intros acc Hr; simpl.
  - exact Hr.
  - apply IH. rewrite (poseStep_reference_kept acc p r Hp Hr). exact Hr.
Qed.

(** The loop writes no other key of the store. *)
Lemma poseStep_other_keys (acc : PoseLocals) (p : Pose) (key : string) :
  key <> referenceNosePosition ->
  loc_store (poseStep acc p) !! key = loc_store acc !! key.
Proof.
  intros Hkey. unfold poseStep, refreshReference.
  destruct (storedReference (loc_store acc)); [destruct (noseCentered (nose p))|];
    simpl; try reflexivity; apply lookup_insert_ne; congruence.
Qed.

Lemma poseLoop_other_keys (poses : list Pose) (acc : PoseLocals) (key : string) :
  key <> referenceNosePosition ->
  loc_store (fold_left poseStep poses acc) !! key = loc_store acc !! key.
Proof.
  intros Hkey. revert acc. induction poses as [|p poses IH]; intros acc; simpl.
  - reflexivity.
  - rewrite IH. apply poseStep_other_keys, Hkey.
Qed.

(** What [detectPose] leaves behind when its guard holds. *)
Lemma detectPose_ready (env : Env) (s : AppState) :
  poseReady env = true -> poseResult env <> [] ->
  snd (detectPose env s) =
    Some (loc_isFaceCentered
            (fold_left poseStep (poseResult env) (mkPoseLocals false 0 0 (localStorage s)))) /\
  localStorage (fst (detectPose env s)) =
    loc_store (fold_left poseStep (poseResult env) (mkPoseLocals false 0 0 (localStorage s))) /\
  faceDetected (fst (detectPose env s)) = true /\
  multiplePeopleDetected (fst (detectPose env s)) = (1 <? length (poseResult env))%nat.
Proof.
  intros Hready Hne. apply length_positive in Hne.
  unfold detectPose. rewrite Hready, Hne. simpl. repeat split; reflexivity.
Qed.

(** [detectPose] resolves to the centring of the last pose. *)
Lemma detectPose_resolves_last (env : Env) (s : AppState) (front : list Pose) (final : Pose) :
  poseReady env = true ->
  poseResult env = front ++ [final] ->
  snd (detectPose env s) = Some (noseCentered (nose final)).
Proof.
  intros Hready Hres.
  assert (Hne : poseResult env <> []).
  { rewrite Hres. destruct front; discriminate. }
  destruct (detectPose_ready env s Hready Hne) as (Hflag & _).
  rewrite Hflag, Hres, fold_left_app. simpl. rewrite poseStep_flag. reflexivity.
Qed.

(** C2, as the component has it. [isFaceCentered] is assigned once per pose,
    so what [detectPose] resolves to is the centring of the last pose of the
    sequence; the stored reference is the nose of the last centred pose,
    whenever some pose is centred. *)
Theorem detectPose_last_pose (env : Env) (s : AppState) (front : list Pose) (final : Pose) :
  poseReady env = true ->
  poseResult env = front ++ [final] ->
  snd (detectPose env s) = Some (noseCentered (nose final)) /\
  (forall before c after,
     front ++ [final] = before ++ c :: after ->
     noseCentered (nose c) = true ->
     Forall (fun p => noseCentered (nose p) = false) after ->
     storedReference (localStorage (fst (detectPose env s))) = Some (nose c)).
Proof.
  intros Hready Hres.
  assert (Hne : poseResult env <> []).
  { rewrite Hres. destruct front; discriminate. }
  destruct (detectPose_ready env s Hready Hne) as (_ & Hstore & _).
  split.
  - apply (detectPose_resolves_last env s front final Hready Hres).
  - intros before c after Hsplit Hc Hafter.
    rewrite Hstore, Hres, Hsplit, fold_left_app. simpl.
    apply poseLoop_reference_kept; [exact Hafter|].
    apply poseStep_reference_refreshed, Hc.
Qed.

(** An aside pose followed by a centred one: [detectPose] resolves to [true]
    and the reference is the centred nose. *)
Lemma detectPose_last_pose_witness :
  snd (detectPose (posesOnly [asidePose; centredPose]) (initialState ∅)) = Some true /\
  storedReference
    (localStorage (fst (detectPose (posesOnly [asidePose; centredPose]) (initialState ∅))))
  = Some (mkPoint 0.5 0.5).
Proof.
  destruct (detectPose_last_pose (posesOnly [asidePose; centredPose]) (initialState ∅)
              [asidePose] centredPose eq_refl eq_refl) as [Hflag Href].
  split.
  - exact Hflag.
  - apply (Href [asidePose] centredPose [] eq_refl eq_refl).
    constructor.
Defined.

(** C2, as stated, fails: a centred pose followed by one that is not centred
    makes [detectPose] resolve to [false], although a detected pose is
    centred. *)
Lemma detectPose_centred_pose_overwritten :
  poseReady (posesOnly [centredPose; asidePose]) = true /\
  Exists (fun p => noseCentered (nose p) = true)
    (poseResult (posesOnly [centredPose; asidePose])) /\
  snd (detectPose (posesOnly [centredPose; asidePose]) (initialState ∅)) = Some false.
Proof.
  split; [reflexivity|]. split.
  - apply Exists_cons_hd. reflexivity.
  - reflexivity.
Qed.

(** ** Capturing the baseline *)

(** [detectPose] writes the pose flags, the two movements and the reference
    position, nothing else. *)
Lemma detectPose_frame (env : Env) (s : AppState) :
  capturedFace (fst (detectPose env s)) = capturedFace s /\
  isFaceCaptured (fst (detectPose env s)) = isFaceCaptured s /\
  faceCaptured (fst (detectPose env s)) = faceCaptured s /\
  unauthorizedPerson (fst (detectPose env s)) = unauthorizedPerson s /\
  headMovementStatus (fst (detectPose env s)) = headMovementStatus s /\
  (forall key, key <> referenceNosePosition ->
     localStorage (fst (detectPose env s)) !! key = localStorage s !! key).
Proof.
  unfold detectPose. destruct (poseReady env); simpl.
  - repeat split; try reflexivity.
    intros key Hkey. destruct (0 <? length (poseResult env))%nat.
    + rewrite (poseLoop_other_keys (poseResult env) _ key Hkey). reflexivity.
    + reflexivity.
  - repeat split; reflexivity.
Qed.

(** A centred answer of [detectPose] means its guard held, so the webcam is there. *)
Lemma detectPose_centered_webcam (env : Env) (s : AppState) :
  truthy (snd (detectPose env s)) = true -> exists video, webcam env = Some video.
Proof.
  unfold detectPose, poseReady. destruct (poseLandmarker env); simpl.
  - destruct (webcam env) as [video|]; simpl.
    + intros _. exists video. reflexivity.
    + discriminate.
  - discriminate.
Qed.

Lemma faceLandmarks_other_key : faceLandmarks <> referenceNosePosition.
Proof. discriminate. Qed.

(** When no detected pose is centred (or none is detected, or the guard
    fails), [detectPose] does not report a centred head. *)
Lemma detectPose_none_centered (env : Env) (s : AppState) :
  Forall (fun p => noseCentered (nose p) = false) (poseResult env) ->
  truthy (snd (detectPose env s)) = false.
Proof.
  intros Hall. destruct (poseReady env) eqn:Hready.
  - destruct (poseResult env) as [|p poses] eqn:Hres.
    + unfold detectPose. rewrite Hready, Hres. reflexivity.
    + destruct (exists_last (l := p :: poses)) as (front & final & Hsplit);
        [discriminate|].
      rewrite Hsplit in Hres.
      rewrite (detectPose_resolves_last env s front final Hready Hres). simpl.
      rewrite Hsplit in Hall. apply Forall_app in Hall. destruct Hall as [_ Hfinal].
      inversion Hfinal; assumption.
  - unfold detectPose. rewrite Hready. reflexivity.
Qed.

(** C5. A capture attempted before any capture, while [detectPose] does not
    report a centred head, ends at the return of line 71: the status asks to
    align the face, the descriptor and both capture flags are as before, and
    so is the persisted landmark list. *)
Theorem captureFace_not_centered (env : Env) (s : AppState) :
  faceCaptured s = false ->
  truthy (snd (detectPose env s)) = false ->
  snd (captureFace env s) = NoCenteredFace /\
  capturedFace (fst (captureFace env s)) = capturedFace s /\
  faceCaptured (fst (captureFace env s)) = false /\
  isFaceCaptured (fst (captureFace env s)) = isFaceCaptured s /\
  localStorage (fst (captureFace env s)) !! faceLandmarks
    = localStorage s !! faceLandmarks /\
  headMovementStatus (fst (captureFace env s)) = msgAlign.
Proof.
  intros Hflag Hcentered.
  destruct (detectPose_frame env s) as (Hc & Hi & Hf & _ & _ & Hkeys).
  unfold captureFace. rewrite Hflag.
  destruct (detectPose env s) as [s1 isCentered]. simpl in *.
  rewrite Hcentered. simpl.
  repeat split; try assumption.
  - congruence.
  - apply Hkeys, faceLandmarks_other_key.
Qed.

(** One pose off to the side, a face the detector would accept: nothing is
    captured. *)
Lemma captureFace_not_centered_witness :
  snd (captureFace (scene [asidePose] [] (Some candidateFace) 100) (initialState ∅))
    = NoCenteredFace /\
  capturedFace
    (fst (captureFace (scene [asidePose] [] (Some candidateFace) 100) (initialState ∅)))
    = None.
Proof.
  destruct (captureFace_not_centered
              (scene [asidePose] [] (Some candidateFace) 100) (initialState ∅))
    as (Hexit & Hface & _).
  - reflexivity.
  - vm_compute. reflexivity.
  - split; [exact Hexit | exact Hface].
Defined.

(** A failed capture still runs [detectPose], which may move the reference
    head position: here an earlier pose of the frame is centred. *)
Lemma failed_capture_moves_reference :
  snd (captureFace (posesOnly [centredPose; asidePose]) (initialState ∅)) = NoCenteredFace /\
  storedReference (localStorage (initialState ∅)) = None /\
  storedReference
    (localStorage (fst (captureFace (posesOnly [centredPose; asidePose]) (initialState ∅))))
  = Some (mkPoint 0.5 0.5).
Proof.
  repeat split; reflexivity.
Qed.

(** C6. Once a capture attempt has passed the centring check, the measured
    brightness gates it: below 50 or above 200 the attempt ends with a
    lighting message and stores nothing; from 50 to 200 it goes on to the
    single-face detection, which alone decides between capture and
    "no face". *)
Theorem captureFace_lighting_gate (env : Env) (s : AppState) :
  faceCaptured s = false ->
  truthy (snd (detectPose env s)) = true ->
  (brightness env < 50 ->
     captureFace env s
       = (setHeadMovementStatus msgLowLight (fst (detectPose env s)), PoorLighting)) /\
  (200 < brightness env ->
     captureFace env s
       = (setHeadMovementStatus msgHighLight (fst (detectPose env s)), PoorLighting)) /\
  (brightness env < 50 \/ 200 < brightness env ->
     capturedFace (fst (captureFace env s)) = capturedFace s /\
     faceCaptured (fst (captureFace env s)) = false /\
     isFaceCaptured (fst (captureFace env s)) = isFaceCaptured s /\
     localStorage (fst (captureFace env s)) !! faceLandmarks
       = localStorage s !! faceLandmarks) /\
  (50 <= brightness env -> brightness env <= 200 ->
     captureFace env s =
       match singleFace env with
       | Some face => (storeCapture face (fst (detectPose env s)), Captured)
       | None =>
           (setHeadMovementStatus (notFoundMessage (brightness env) true)
              (fst (detectPose env s)), NoFaceDetected)
       end).
Proof.
  intros Hflag Hcentered.
  destruct (detectPose_centered_webcam env s Hcentered) as [video Hcam].
  destruct (detectPose_frame env s) as (Hc & Hi & Hf & _ & _ & Hkeys).
  assert (Hlow : brightness env < 50 ->
            captureFace env s
              = (setHeadMovementStatus msgLowLight (fst (detectPose env s)), PoorLighting)).
  { intros Hb. apply num_lt_iff in Hb. unfold captureFace. rewrite Hflag.
    destruct (detectPose env s) as [s1 isCentered]. simpl in *.
    rewrite Hcentered, Hcam, Hb. reflexivity. }
  assert (Hhigh : 200 < brightness env ->
            captureFace env s
              = (setHeadMovementStatus msgHighLight (fst (detectPose env s)), PoorLighting)).
  { intros Hb.
    assert (Hb' : num_lt (brightness env) 50 = false)
      by (apply num_lt_false_iff; lra).
    apply num_lt_iff in Hb. unfold captureFace. rewrite Hflag.
    destruct (detectPose env s) as [s1 isCentered]. simpl in *.
    rewrite Hcentered, Hcam, Hb', Hb. reflexivity. }
  split; [exact Hlow|]. split; [exact Hhigh|]. split.
  - intros [Hb|Hb]; [rewrite (Hlow Hb) | rewrite (Hhigh Hb)]; simpl;
      (repeat split; [exact Hc | congruence | exact Hi
                     | apply Hkeys, faceLandmarks_other_key]).
  - intros Hb1 Hb2. apply num_lt_false_iff in Hb1, Hb2.
    unfold captureFace. rewrite Hflag.
    destruct (detectPose env s) as [s1 isCentered]. simpl in *.
    rewrite Hcentered, Hcam, Hb1, Hb2. reflexivity.
Qed.

(** A centred head in a dark room (brightness 30), with a face the detector
    would accept: the attempt ends with the low-light message and captures
    nothing. *)
Lemma captureFace_lighting_gate_witness :
  snd (captureFace (scene [centredPose] [] (Some candidateFace) 30) (initialState ∅))
    = PoorLighting /\
  capturedFace
    (fst (captureFace (scene [centredPose] [] (Some candidateFace) 30) (initialState ∅)))
    = None.
Proof.
  destruct (captureFace_lighting_gate
              (scene [centredPose] [] (Some candidateFace) 30) (initialState ∅))
    as (Hlow & _ & Hkeep & _).
  - reflexivity.
  - vm_compute. reflexivity.
  - split.
    + rewrite Hlow; reflexivity.
    + apply Hkeep. left. reflexivity.
Defined.

(** Outside the band nothing is stored, whatever the rest of the state and
    of the frame. *)
Lemma captureFace_poor_lighting_stores_nothing (env : Env) (s : AppState) :
  brightness env < 50 \/ 200 < brightness env ->
  capturedFace (fst (captureFace env s)) = capturedFace s /\
  snd (captureFace env s) <> Captured.
Proof.
  intros Hb.
  assert (Hgate : num_lt (brightness env) 50 = true \/
                  (num_lt (brightness env) 50 = false /\ num_lt 200 (brightness env) = true)).
  { destruct Hb as [Hb|Hb].
    - left. apply num_lt_iff, Hb.
    - right. split; [apply num_lt_false_iff; lra | apply num_lt_iff, Hb]. }
  destruct (detectPose_frame env s) as (Hc & _).
  unfold captureFace. destruct (faceCaptured s); [split; [reflexivity|discriminate]|].
  destruct (detectPose env s) as [s1 isCentered]. simpl in *.
  destruct (truthy isCentered); simpl; [|split; [exact Hc|discriminate]].
  destruct (webcam env); [|split; [exact Hc|discriminate]].
  destruct Hgate as [-> | [-> ->]]; (split; [exact Hc|discriminate]).
Qed.

(** The second variant never reads the brightness: the same dark room, and
    the face is captured. *)
Lemma second_variant_has_no_lighting_gate :
  (forall env s level,
     SecondVariant.captureFace
       (mkEnv (poseLandmarker env) (objectDetector env) (faceapiLoaded env) (webcam env)
          (poseResult env) (allFaces env) (singleFace env) level (objectResult env)) s
     = SecondVariant.captureFace env s) /\
  snd (SecondVariant.captureFace
         (scene [centredPose] [] (Some candidateFace) 30) (initialState ∅)) = Captured.
Proof.
  split; [|reflexivity].
  intros env s level. reflexivity.
Qed.

(** ** Selecting the face to verify *)

Lemma closer_choice (video : Video) (prev curr : Detection) :
  closer video prev curr = prev \/ closer video prev curr = curr.
Proof.
  unfold closer. destruct (num_lt _ _); [right|left]; reflexivity.
Qed.

Lemma closer_le (video : Video) (prev curr : Detection) :
  manhattan video (closer video prev curr) <= manhattan video prev /\
  manhattan video (closer video prev curr) <= manhattan video curr.
Proof.
  unfold closer.
  destruct (num_lt (manhattan video curr) (manhattan video prev)) eqn:E.
  - apply num_lt_iff in E. split; [apply Qlt_le_weak, E | apply Qle_refl].
  - apply num_lt_false_iff in E. split; [apply Qle_refl | exact E].
Qed.

(** The [reduce] returns an element of the array that no element beats. *)
Lemma reduce_closer_min (video : Video) (rest : list Detection) (first : Detection) :
  In (fold_left (closer video) rest first) (first :: rest) /\
  manhattan video (fold_left (closer video) rest first) <= manhattan video first /\
  Forall (fun d => manhattan video (fold_left (closer video) rest first)
                     <= manhattan video d) rest.
Proof.
  revert first. induction rest as [|x rest IH]; intros first; simpl.
  - split; [left; reflexivity|]. split; [apply Qle_refl | constructor].
  - destruct (IH (closer video first x)) as (Hin & Hle & Hall).
    destruct (closer_le video first x) as [Hfirst Hx].
    split; [|split].
    + destruct Hin as [Hin|Hin]; [|right; right; exact Hin].
      rewrite <- Hin.
      destruct (closer_choice video first x) as [E|E]; rewrite E.
      * left. reflexivity.
      * right. left. reflexivity.
    + apply (Qle_trans _ _ _ Hle Hfirst).
    + constructor; [apply (Qle_trans _ _ _ Hle Hx) | exact Hall].
Qed.

Lemma centeredFace_min (video : Video) (detections : list Detection) :
  detections <> [] ->
  exists face,
    centeredFace video detections = Some face /\
    In face detections /\
    Forall (fun d => manhattan video face <= manhattan video d) detections.
Proof.
  destruct detections as [|first rest]; [congruence|]. intros _.
  destruct (reduce_closer_min video rest first) as (Hin & Hle & Hall).
  unfold centeredFace. destruct rest as [|x rest].
  - exists first. split; [reflexivity|]. split; [left; reflexivity|].
    constructor; [apply Qle_refl | constructor].
  - exists (fold_left (closer video) (x :: rest) first).
    split; [reflexivity|]. split; [exact Hin|].
    constructor; [exact Hle | exact Hall].
Qed.

(** The state [verifyFace] leaves when all its guards hold and a face is
    selected. *)
Lemma verifyFace_selected (euclid : Descriptor -> Descriptor -> Q)
    (env : Env) (s : AppState) (baseline : Descriptor) (video : Video) (face : Detection) :
  capturedFace s = Some baseline ->
  webcam env = Some video ->
  faceapiLoaded env = true ->
  readyState video = 4%Z ->
  centeredFace video (allFaces env) = Some face ->
  verifyFace euclid env s =
    match descriptor face with
    | None => setFaceDetected false s
    | Some d => setUnauthorizedPerson (num_lt 0.6 (euclid baseline d)) (setFaceDetected true s)
    end.
Proof.
  intros Hbase Hcam Hloaded Hstate Hface.
  unfold verifyFace. rewrite Hbase, Hcam, Hloaded, Hstate, Hface. reflexivity.
Qed.

(** C8. In a frame with several faces, the face [verifyFace] compares with
    the baseline is one of the detected faces and no detected face is closer,
    in Manhattan distance from box centre to frame centre; of two faces at
    distances 0.1 and 0.3 it is the one at 0.1, in either order. *)
Theorem centeredFace_closest (video : Video) (detections : list Detection) :
  (1 < length detections)%nat ->
  (exists face,
     centeredFace video detections = Some face /\
     In face detections /\
     Forall (fun d => manhattan video face <= manhattan video d) detections /\
     (forall euclid env s baseline d,
        capturedFace s = Some baseline -> webcam env = Some video ->
        faceapiLoaded env = true -> readyState video = 4%Z ->
        allFaces env = detections -> descriptor face = Some d ->
        unauthorizedPerson (verifyFace euclid env s) = num_lt 0.6 (euclid baseline d))) /\
  (forall near far,
     manhattan video near == 0.1 -> manhattan video far == 0.3 ->
     (detections = [near; far] \/ detections = [far; near]) ->
     centeredFace video detections = Some near).
Proof.
  intros Hlen. split.
  - assert (Hne : detections <> []) by (destruct detections; [inversion Hlen | discriminate]).
    destruct (centeredFace_min video detections Hne) as (face & Hsel & Hin & Hmin).
    exists face. repeat split; try assumption.
    intros euclid env s baseline d Hbase Hcam Hloaded Hstate Hall Hd.
    rewrite <- Hall in Hsel.
    rewrite (verifyFace_selected euclid env s baseline video face
               Hbase Hcam Hloaded Hstate Hsel), Hd.
    reflexivity.
  - intros near far Hnear Hfar [-> | ->]; unfold centeredFace; simpl; unfold closer.
    + assert (E : num_lt (manhattan video far) (manhattan video near) = false)
        by (apply num_lt_false_iff; rewrite Hnear, Hfar; lra).
      rewrite E. reflexivity.
    + assert (E : num_lt (manhattan video near) (manhattan video far) = true)
        by (apply num_lt_iff; rewrite Hnear, Hfar; lra).
      rewrite E. reflexivity.
Qed.

(** The far face listed first, the near face second: the near one is selected. *)
Lemma centeredFace_closest_witness :
  centeredFace readyVideo [farFace; nearFace] = Some nearFace.
Proof.
  apply (proj2 (centeredFace_closest readyVideo [farFace; nearFace] (Nat.lt_succ_diag_r 1))
           nearFace farFace).
  - reflexivity.
  - reflexivity.
  - right. reflexivity.
Defined.

(** ** Verifying the identity *)

(** C7. When [verifyFace] reaches the comparison, the unauthorised flag it
    writes is true exactly when the distance between the baseline and the
    descriptor of the selected face is strictly above 0.6: a distance of 0.6
    is not flagged, a distance of 0.61 is. *)
Theorem verifyFace_threshold (euclid : Descriptor -> Descriptor -> Q)
    (env : Env) (s : AppState) (baseline d : Descriptor) (video : Video) (face : Detection) :
  capturedFace s = Some baseline ->
  webcam env = Some video ->
  faceapiLoaded env = true ->
  readyState video = 4%Z ->
  centeredFace video (allFaces env) = Some face ->
  descriptor face = Some d ->
  (unauthorizedPerson (verifyFace euclid env s) = true <-> 0.6 < euclid baseline d) /\
  (unauthorizedPerson (verifyFace euclid env s) = false <-> euclid baseline d <= 0.6) /\
  (euclid baseline d == 0.6 -> unauthorizedPerson (verifyFace euclid env s) = false) /\
  (euclid baseline d == 0.61 -> unauthorizedPerson (verifyFace euclid env s) = true).
Proof.
  intros Hbase Hcam Hloaded Hstate Hface Hd.
  rewrite (verifyFace_selected euclid env s baseline video face
             Hbase Hcam Hloaded Hstate Hface), Hd.
  simpl. split; [apply num_lt_iff|]. split; [apply num_lt_false_iff|]. split.
  - intros E. apply num_lt_false_iff. rewrite E. apply Qle_refl.
  - intros E. apply num_lt_iff. rewrite E. reflexivity.
Qed.

(** After a capture, the test-taker's own face (distance 0) is not flagged
    and a stranger at distance 0.9 is. *)
Lemma verifyFace_threshold_witness :
  unauthorizedPerson (verifyFace coordinateDistance ownScene capturedState) = false /\
  unauthorizedPerson (verifyFace coordinateDistance strangerScene capturedState) = true.
Proof.
  split.
  - apply (proj1 (proj2 (verifyFace_threshold coordinateDistance ownScene capturedState
                           [0.1] [0.1] readyVideo ownFace
                           eq_refl eq_refl eq_refl eq_refl eq_refl eq_refl))).
    vm_compute. discriminate.
  - apply (proj1 (verifyFace_threshold coordinateDistance strangerScene capturedState
                    [0.1] [1.0] readyVideo strangerFace
                    eq_refl eq_refl eq_refl eq_refl eq_refl eq_refl)).
    vm_compute. reflexivity.
Defined.

(** On an empty detection list [verifyFace] writes nothing: the read of
    [centeredFace.descriptor] throws and the handler only logs. *)
Lemma verifyFace_no_faces (euclid : Descriptor -> Descriptor -> Q) (env : Env) (s : AppState) :
  allFaces env = [] -> verifyFace euclid env s = s.
Proof.
  intros Hnone. unfold verifyFace. rewrite Hnone.
  destruct (capturedFace s); [|reflexivity].
  destruct (webcam env) as [video|]; [|reflexivity].
  destruct (negb (faceapiLoaded env)); [reflexivity|].
  destruct (negb (readyState video =? 4)%Z); reflexivity.
Qed.

(** C9, as the component has it. When at least one face is detected and no
    detected face has a descriptor, [verifyFace] clears [faceDetected],
    computes no distance, and writes nothing else: the unauthorised flag
    keeps the value it had before the tick. *)
Theorem verifyFace_no_descriptor (euclid : Descriptor -> Descriptor -> Q)
    (env : Env) (s : AppState) (baseline : Descriptor) (video : Video) :
  capturedFace s = Some baseline ->
  webcam env = Some video ->
  faceapiLoaded env = true ->
  readyState video = 4%Z ->
  allFaces env <> [] ->
  Forall (fun face => descriptor face = None) (allFaces env) ->
  verifyFace euclid env s = setFaceDetected false s /\
  faceDetected (verifyFace euclid env s) = false /\
  unauthorizedPerson (verifyFace euclid env s) = unauthorizedPerson s /\
  (forall other, verifyFace other env s = verifyFace euclid env s).
Proof.
  intros Hbase Hcam Hloaded Hstate Hne Hall.
  destruct (centeredFace_min video (allFaces env) Hne) as (face & Hsel & Hin & _).
  assert (Hd : descriptor face = None).
  { rewrite Forall_forall in Hall. apply Hall. apply list_elem_of_In, Hin. }
  assert (Hany : forall f, verifyFace f env s = setFaceDetected false s).
  { intros f.
    rewrite (verifyFace_selected f env s baseline video face
               Hbase Hcam Hloaded Hstate Hsel), Hd.
    reflexivity. }
  split; [apply Hany|]. rewrite !Hany. repeat split.
  intros other. apply Hany.
Qed.

(** A face without descriptor in front of a captured session. *)
Lemma verifyFace_no_descriptor_witness :
  faceDetected (verifyFace coordinateDistance blankScene capturedState) = false /\
  unauthorizedPerson (verifyFace coordinateDistance blankScene capturedState) = false.
Proof.
  destruct (verifyFace_no_descriptor coordinateDistance blankScene capturedState
              [0.1] readyVideo) as (_ & Hface & Hflag & _).
  - reflexivity.
  - reflexivity.
  - reflexivity.
  - reflexivity.
  - discriminate.
  - repeat constructor.
  - split; [exact Hface | rewrite Hflag; reflexivity].
Defined.

(** Distances of exactly 0.6 and 0.61 from the baseline [0.1]. *)
Lemma verifyFace_boundary :
  unauthorizedPerson
    (verifyFace coordinateDistance
       (scene [centredPose] [mkDetection (boxAt 0) (Some [0.7])] None 100) capturedState)
    = false /\
  unauthorizedPerson
    (verifyFace coordinateDistance
       (scene [centredPose] [mkDetection (boxAt 0) (Some [0.71])] None 100) capturedState)
    = true.
Proof.
  split; vm_compute; reflexivity.
Qed.

(** C9, as stated, fails: a tick flags a stranger, and the next tick, whose
    only face has no descriptor, clears [faceDetected] and leaves the
    unauthorised flag raised. *)
Lemma unauthorized_flag_carried_over :
  Forall (fun face => descriptor face = None) (allFaces blankScene) /\
  unauthorizedPerson
    (run coordinateDistance [RequestCapture captureScene; Tick strangerScene] (initialState ∅))
    = true /\
  unauthorizedPerson
    (run coordinateDistance
       [RequestCapture captureScene; Tick strangerScene; Tick blankScene] (initialState ∅))
    = true /\
  faceDetected
    (run coordinateDistance
       [RequestCapture captureScene; Tick strangerScene; Tick blankScene] (initialState ∅))
    = false.
Proof.
  split; [repeat constructor|].
  repeat split; vm_compute; reflexivity.
Qed.

(** With no face at all the flag is carried over too, and [faceDetected]
    is not cleared by [verifyFace]. *)
Lemma no_faces_tick_changes_nothing_in_verification :
  unauthorizedPerson
    (run coordinateDistance
       [RequestCapture captureScene; Tick strangerScene; Tick (posesOnly [centredPose])]
       (initialState ∅)) = true /\
  faceDetected
    (run coordinateDistance
       [RequestCapture captureScene; Tick strangerScene; Tick (posesOnly [centredPose])]
       (initialState ∅)) = true.
Proof.
  split; vm_compute; reflexivity.
Qed.

(** ** One tick *)

Lemma detectObjects_frame (env : Env) (s : AppState) :
  faceDetected (detectObjects env s) = faceDetected s /\
  capturedFace (detectObjects env s) = capturedFace s /\
  faceCaptured (detectObjects env s) = faceCaptured s /\
  isFaceCaptured (detectObjects env s) = isFaceCaptured s.
Proof.
  unfold detectObjects. destruct (objectsReady env); repeat split; reflexivity.
Qed.

Lemma verifyFace_frame (euclid : Descriptor -> Descriptor -> Q) (env : Env) (s : AppState) :
  capturedFace (verifyFace euclid env s) = capturedFace s /\
  faceCaptured (verifyFace euclid env s) = faceCaptured s /\
  isFaceCaptured (verifyFace euclid env s) = isFaceCaptured s.
Proof.
  unfold verifyFace.
  destruct (capturedFace s) eqn:Hbase; [|repeat split; reflexivity || exact Hbase].
  destruct (webcam env) as [video|]; [|repeat split; reflexivity || exact Hbase].
  destruct (negb (faceapiLoaded env)); [repeat split; reflexivity || exact Hbase|].
  destruct (negb (readyState video =? 4)%Z); [repeat split; reflexivity || exact Hbase|].
  destruct (centeredFace video (allFaces env)) as [face|];
    [|repeat split; reflexivity || exact Hbase].
  destruct (descriptor face); repeat split; reflexivity || exact Hbase.
Qed.

(** [faceDetected] at the end of a tick that runs the verification. *)
Lemma tick_faceDetected_verified (euclid : Descriptor -> Descriptor -> Q)
    (env : Env) (s : AppState) :
  isFaceCaptured s = true ->
  faceDetected (tick euclid env s)
    = faceDetected (verifyFace euclid env (fst (detectPose env s))).
Proof.
  intros Hcap. unfold tick. rewrite Hcap. simpl.
  apply (detectObjects_frame env).
Qed.

Lemma poseReady_video (env : Env) (video : Video) :
  poseReady env = true -> webcam env = Some video -> readyState video = 4%Z.
Proof.
  unfold poseReady. intros Hready Hcam. rewrite Hcam in Hready.
  apply andb_true_iff in Hready. destruct Hready as [_ Hstate].
  apply Z.eqb_eq, Hstate.
Qed.

(** C10, as the component has it. With at least one pose, [detectPose] sets
    [faceDetected], whatever the faces in the frame and whatever the flag was
    before. [verifyFace] runs after it in the same tick: once a baseline is
    captured and a face is selected, the flag at the end of the tick tells
    whether that face has a descriptor; the value of [detectPose] stands
    while nothing is captured or the face model is not loaded. *)
Theorem tick_faceDetected (euclid : Descriptor -> Descriptor -> Q)
    (env : Env) (s : AppState) :
  poseReady env = true ->
  poseResult env <> [] ->
  faceDetected (fst (detectPose env s)) = true /\
  (isFaceCaptured s = false -> faceDetected (tick euclid env s) = true) /\
  (faceapiLoaded env = false -> faceDetected (tick euclid env s) = true) /\
  (forall baseline video face,
     isFaceCaptured s = true ->
     capturedFace s = Some baseline ->
     webcam env = Some video ->
     faceapiLoaded env = true ->
     centeredFace video (allFaces env) = Some face ->
     faceDetected (tick euclid env s)
       = match descriptor face with Some _ => true | None => false end).
Proof.
  intros Hready Hne.
  destruct (detectPose_ready env s Hready Hne) as (_ & _ & Hpose & _).
  destruct (detectPose_frame env s) as (Hbase' & _).
  split; [exact Hpose|]. split; [|split].
  - intros Hcap. unfold tick. rewrite Hcap. exact Hpose.
  - intros Hloaded. unfold tick.
    destruct (isFaceCaptured s); [|exact Hpose]. simpl.
    rewrite (proj1 (detectObjects_frame env _)).
    unfold verifyFace. rewrite Hloaded.
    destruct (capturedFace _); [|exact Hpose].
    destruct (webcam env); exact Hpose.
  - intros baseline video face Hcap Hbase Hcam Hloaded Hsel.
    rewrite (tick_faceDetected_verified euclid env s Hcap).
    rewrite <- Hbase' in Hbase.
    rewrite (verifyFace_selected euclid env _ baseline video face
               Hbase Hcam Hloaded (poseReady_video env video Hready Hcam) Hsel).
    destruct (descriptor face); reflexivity.
Qed.

(** A captured session, one centred pose: with the test-taker's face the
    flag ends raised, with a face without descriptor it ends cleared. *)
Lemma tick_faceDetected_witness :
  faceDetected (tick coordinateDistance ownScene capturedState) = true /\
  faceDetected (tick coordinateDistance blankScene capturedState) = false.
Proof.
  split.
  - destruct (tick_faceDetected coordinateDistance ownScene capturedState)
      as (_ & _ & _ & Hsel); [reflexivity | discriminate |].
    apply (Hsel [0.1] readyVideo ownFace); reflexivity.
  - destruct (tick_faceDetected coordinateDistance blankScene capturedState)
      as (_ & _ & _ & Hsel); [reflexivity | discriminate |].
    apply (Hsel [0.1] readyVideo blankFace); reflexivity.
Defined.

(** C10, as stated, fails: one pose is detected, [detectPose] raises the
    flag, and the tick still ends with [faceDetected] cleared, by
    [verifyFace]. *)
Lemma pose_flag_overwritten_by_verification :
  poseReady blankScene = true /\
  poseResult blankScene <> [] /\
  faceDetected (fst (detectPose blankScene capturedState)) = true /\
  faceDetected (tick coordinateDistance blankScene capturedState) = false.
Proof.
  split; [reflexivity|]. split; [discriminate|]. split; vm_compute; reflexivity.
Qed.

(** ** The baseline is captured once *)

Lemma captureFace_already (env : Env) (s : AppState) :
  faceCaptured s = true -> captureFace env s = (s, AlreadyCaptured).
Proof.
  intros Hflag. unfold captureFace. rewrite Hflag. reflexivity.
Qed.

(** The only path that ends in [Captured] is the one through [storeCapture]. *)
Lemma captureFace_captured_inv (env : Env) (s s' : AppState) :
  captureFace env s = (s', Captured) ->
  faceCaptured s = false /\
  exists face,
    singleFace env = Some face /\ s' = storeCapture face (fst (detectPose env s)).
Proof.
  unfold captureFace.
  destruct (faceCaptured s); [discriminate|].
  destruct (detectPose env s) as [s1 isCentered]. simpl.
  destruct (negb (truthy isCentered)); [discriminate|].
  destruct (webcam env); [|discriminate].
  destruct (num_lt (brightness env) 50); [discriminate|].
  destruct (num_lt 200 (brightness env)); [discriminate|].
  destruct (singleFace env) as [face|]; [|discriminate].
  intros H. inversion H. split; [reflexivity|]. exists face. split; reflexivity.
Qed.

(** Every other path leaves the descriptor and the flag as they were. *)
Lemma captureFace_cases (env : Env) (s : AppState) :
  (snd (captureFace env s) = Captured /\ faceCaptured (fst (captureFace env s)) = true) \/
  (capturedFace (fst (captureFace env s)) = capturedFace s /\
   faceCaptured (fst (captureFace env s)) = faceCaptured s).
Proof.
  destruct (detectPose_frame env s) as (Hc & _ & Hf & _).
  unfold captureFace.
  destruct (faceCaptured s) eqn:Hflag; [right; split; [reflexivity|exact Hflag]|].
  destruct (detectPose env s) as [s1 isCentered]. simpl in *.
  destruct (negb (truthy isCentered)); [right; split; assumption|].
  destruct (webcam env); [|right; split; assumption].
  destruct (num_lt (brightness env) 50); [right; split; assumption|].
  destruct (num_lt 200 (brightness env)); [right; split; assumption|].
  destruct (singleFace env) as [face|]; [|right; split; assumption].
  left. split; reflexivity.
Qed.

Lemma tick_frame (euclid : Descriptor -> Descriptor -> Q) (env : Env) (s : AppState) :
  capturedFace (tick euclid env s) = capturedFace s /\
  faceCaptured (tick euclid env s) = faceCaptured s.
Proof.
  destruct (detectPose_frame env s) as (Hc & _ & Hf & _).
  unfold tick. destruct (isFaceCaptured s); [|split; assumption]. simpl.
  destruct (detectObjects_frame env (verifyFace euclid env (fst (detectPose env s))))
    as (_ & Hc2 & Hf2 & _).
  destruct (verifyFace_frame euclid env (fst (detectPose env s))) as (Hc3 & Hf3 & _).
  split; congruence.
Qed.

Lemma step_after_capture (euclid : Descriptor -> Descriptor -> Q) (s : AppState) (e : Event) :
  faceCaptured s = true ->
  capturedFace (step euclid s e) = capturedFace s /\
  faceCaptured (step euclid s e) = true.
Proof.
  intros Hflag. destruct e as [env|env]; simpl.
  - destruct (tick_frame euclid env s) as [Hc Hf]. split; congruence.
  - rewrite (captureFace_already env s Hflag). split; [reflexivity|exact Hflag].
Qed.

Lemma run_after_capture (euclid : Descriptor -> Descriptor -> Q)
    (events : list Event) (s : AppState) :
  faceCaptured s = true ->
  capturedFace (run euclid events s) = capturedFace s /\
  faceCaptured (run euclid events s) = true.
Proof.
  revert s. induction events as [|e events IH]; intros s Hflag; simpl.
  - split; [reflexivity|exact Hflag].
  - destruct (step_after_capture euclid s e Hflag) as [Hc Hf].
    destruct (IH (step euclid s e) Hf) as [Hc' Hf'].
    split; [congruence|exact Hf'].
Qed.

(** Requests that do not overlap. After a successful capture the descriptor
    is stored, every capture request started afterwards returns at line 66
    with the state untouched, and no sequence of ticks and of capture
    requests that each finish before the next event (the schedule of [run])
    changes the stored descriptor. *)
Theorem captureFace_idempotent (euclid : Descriptor -> Descriptor -> Q)
    (env : Env) (s s' : AppState) :
  captureFace env s = (s', Captured) ->
  (exists face, singleFace env = Some face /\ capturedFace s' = Some (sf_descriptor face)) /\
  (forall env', captureFace env' s' = (s', AlreadyCaptured)) /\
  (forall events,
     capturedFace (run euclid events s') = capturedFace s' /\
     faceCaptured (run euclid events s') = true).
Proof.
  intros Hcap.
  destruct (captureFace_captured_inv env s s' Hcap) as (_ & face & Hsingle & ->).
  assert (Hflag : faceCaptured (storeCapture face (fst (detectPose env s))) = true)
    by reflexivity.
  split; [exists face; split; [exact Hsingle | reflexivity]|]. split.
  - intros env'. apply captureFace_already, Hflag.
  - intros events. apply run_after_capture, Hflag.
Qed.

(** A capture in a fresh session, then a second request in front of a
    stranger: the request is turned down and the descriptor is the first one. *)
Lemma captureFace_idempotent_witness :
  captureFace (scene [centredPose] [] (Some (mkSingleFace [1.0] [])) 100) capturedState
    = (capturedState, AlreadyCaptured) /\
  capturedFace
    (run coordinateDistance
       [Tick strangerScene;
        RequestCapture (scene [centredPose] [] (Some (mkSingleFace [1.0] [])) 100)]
       capturedState)
    = Some [0.1].
Proof.
  destruct (captureFace_idempotent coordinateDistance captureScene (initialState ∅)
              capturedState) as (_ & Hagain & Hrun).
  - reflexivity.
  - split.
    + apply Hagain.
    + rewrite (proj1 (Hrun _)). reflexivity.
Defined.

(** In the schedule of [run], where no capture request starts while another
    is suspended, the stored descriptor never changes once it is there. *)
Lemma baseline_set_at_most_once (euclid : Descriptor -> Descriptor -> Q)
    (store : gmap string Stored) (events more : list Event) (d : Descriptor) :
  capturedFace (run euclid events (initialState store)) = Some d ->
  capturedFace (run euclid (events ++ more) (initialState store)) = Some d.
Proof.
  assert (Hinv : forall evs s,
            capturedFace s = None \/ faceCaptured s = true ->
            capturedFace (run euclid evs s) = None \/ faceCaptured (run euclid evs s) = true).
  { induction evs as [|e evs IH]; intros s Hs; simpl; [exact Hs|].
    apply IH. destruct e as [env|env]; simpl.
    - destruct (tick_frame euclid env s) as [Hc Hf]. rewrite Hc, Hf. exact Hs.
    - destruct (captureFace_cases env s) as [[_ Hf]|[Hc Hf]].
      + right. exact Hf.
      + rewrite Hc, Hf. exact Hs. }
  intros Hd. unfold run in *. rewrite fold_left_app.
  destruct (Hinv events (initialState store) (or_introl eq_refl)) as [Hnone|Hflag].
  - unfold run in Hnone. congruence.
  - rewrite <- Hd. apply (run_after_capture euclid more _ Hflag).
Qed.

(** * Further properties of the component *)

(** ** Measuring the brightness *)

(** Every colour channel of every pixel lies between [lo] and [hi]. *)
Definition channelsWithin (lo hi : Z) (data : list Pixel) : Prop :=
  Forall (fun p => (lo <= red p <= hi)%Z /\ (lo <= green p <= hi)%Z /\
                   (lo <= blue p <= hi)%Z) data.

Lemma pixelBrightness_bounds (lo hi : Z) (p : Pixel) :
  (lo <= red p <= hi)%Z -> (lo <= green p <= hi)%Z -> (lo <= blue p <= hi)%Z ->
  inject_Z lo <= pixelBrightness p /\ pixelBrightness p <= inject_Z hi.
Proof.
  intros [Hr1 Hr2] [Hg1 Hg2] [Hb1 Hb2]. unfold pixelBrightness.
  rewrite !inject_Z_plus.
  rewrite Zle_Qle in Hr1, Hr2, Hg1, Hg2, Hb1, Hb2.
  split.
  - apply Qle_shift_div_l; [reflexivity | lra].
  - apply Qle_shift_div_r; [reflexivity | lra].
Qed.

Lemma inject_length_succ {A : Type} (a : A) (l : list A) :
  inject_Z (Z.of_nat (length (a :: l))) == inject_Z (Z.of_nat (length l)) + 1.
Proof.
  simpl length. rewrite Nat2Z.inj_succ, <- Z.add_1_r, inject_Z_plus. reflexivity.
Qed.

Lemma brightnessLoop_bounds (lo hi : Z) (data : list Pixel) (total : Q) :
  channelsWithin lo hi data ->
  total + inject_Z lo * inject_Z (Z.of_nat (length data))
    <= fold_left (fun total p => total + pixelBrightness p) data total /\
  fold_left (fun total p => total + pixelBrightness p) data total
    <= total + inject_Z hi * inject_Z (Z.of_nat (length data)).
Proof.
  intros Hall. revert total.
  induction Hall as [|p data (Hr & Hg & Hb) _ IH]; intros total.
  - simpl. split; ring_simplify; apply Qle_refl.
  - destruct (pixelBrightness_bounds lo hi p Hr Hg Hb) as [Hlo Hhi].
    destruct (IH (total + pixelBrightness p)) as [IHlo IHhi].
    rewrite inject_length_succ. simpl fold_left. split; lra.
Qed.

(** X1. On a frame with at least one pixel the measured brightness lies
    between the darkest and the brightest colour channel of the frame; with
    bytes, between 0 and 255. *)
Theorem getBrightness_bounds (lo hi : Z) (data : list Pixel) :
  data <> [] ->
  channelsWithin lo hi data ->
  inject_Z lo <= getBrightness (Some data) /\ getBrightness (Some data) <= inject_Z hi.
Proof.
  intros Hne Hall.
  destruct (brightnessLoop_bounds lo hi data 0 Hall) as [Hlo Hhi].
  assert (Hlen : 0 < inject_Z (Z.of_nat (length data))).
  { destruct data as [|p data]; [congruence|].
    rewrite inject_length_succ.
    assert (H0 : 0 <= inject_Z (Z.of_nat (length data))).
    { change 0 with (inject_Z 0). rewrite <- Zle_Qle. apply Nat2Z.is_nonneg. }
    lra. }
  unfold getBrightness, totalBrightness. split.
  - apply Qle_shift_div_l; [exact Hlen | lra].
  - apply Qle_shift_div_r; [exact Hlen | lra].
Qed.

(** A frame of two pixels of arbitrary bytes: the brightness is between 0 and 255. *)
Lemma getBrightness_bounds_witness :
  0 <= getBrightness (Some [mkPixel 12 200 90 255; mkPixel 255 0 31 255]) /\
  getBrightness (Some [mkPixel 12 200 90 255; mkPixel 255 0 31 255]) <= 255.
Proof.
  apply (getBrightness_bounds 0 255 [mkPixel 12 200 90 255; mkPixel 255 0 31 255]).
  - discriminate.
  - repeat constructor; simpl; lia.
Defined.

Lemma inject_length_pos {A : Type} (l : list A) :
  l <> [] -> 0 < inject_Z (Z.of_nat (length l)).
Proof.
  destruct l as [|a l]; [congruence|]. intros _.
  rewrite inject_length_succ.
  assert (H0 : 0 <= inject_Z (Z.of_nat (length l))).
  { change 0 with (inject_Z 0). rewrite <- Zle_Qle. apply Nat2Z.is_nonneg. }
  lra.
Qed.

(** A capture attempt that has passed the first two checks, by the value of
    the two brightness tests. *)
Lemma captureFace_measured (env : Env) (s : AppState) :
  faceCaptured s = false ->
  truthy (snd (detectPose env s)) = true ->
  captureFace env s =
    if num_lt (brightness env) 50
    then (setHeadMovementStatus msgLowLight (fst (detectPose env s)), PoorLighting)
    else if num_lt 200 (brightness env)
    then (setHeadMovementStatus msgHighLight (fst (detectPose env s)), PoorLighting)
    else
      match singleFace env with
      | Some face => (storeCapture face (fst (detectPose env s)), Captured)
      | None =>
          (setHeadMovementStatus (notFoundMessage (brightness env) true)
             (fst (detectPose env s)), NoFaceDetected)
      end.
Proof.
  intros Hflag Hcentered.
  destruct (detectPose_centered_webcam env s Hcentered) as [video Hcam].
  unfold captureFace. rewrite Hflag.
  destruct (detectPose env s) as [s1 isCentered]. simpl in *.
  rewrite Hcentered, Hcam. reflexivity.
Qed.

(** X2. When the frame cannot be read, the brightness falls back to 100 and
    the lighting never turns the attempt down: a centred attempt goes on to
    the face detection, and without a face the message is the one about
    visibility, not the one about lighting. *)
Theorem captureFace_unreadable_frame (env : Env) (s : AppState) :
  brightness env = getBrightness None ->
  faceCaptured s = false ->
  truthy (snd (detectPose env s)) = true ->
  captureFace env s =
    match singleFace env with
    | Some face => (storeCapture face (fst (detectPose env s)), Captured)
    | None =>
        (setHeadMovementStatus msgNotVisible (fst (detectPose env s)), NoFaceDetected)
    end.
Proof.
  intros Hlevel Hflag Hcentered.
  rewrite (captureFace_measured env s Hflag Hcentered), Hlevel. reflexivity.
Qed.

(** A centred head, no face found, the frame unreadable. *)
Lemma captureFace_unreadable_frame_witness :
  headMovementStatus
    (fst (captureFace (scene [centredPose] [] None (getBrightness None)) (initialState ∅)))
  = msgNotVisible.
Proof.
  rewrite (captureFace_unreadable_frame
             (scene [centredPose] [] None (getBrightness None)) (initialState ∅)).
  - reflexivity.
  - reflexivity.
  - reflexivity.
  - vm_compute. reflexivity.
Defined.

(** X3. A frame whose colour channels are all at most 49 is turned down for
    low light, and one whose channels are all at least 201 for too much
    light, whatever the single-face detector would answer; nothing is
    captured. *)
Theorem captureFace_dark_or_glaring_frame (env : Env) (s : AppState) (data : list Pixel) :
  brightness env = getBrightness (Some data) ->
  data <> [] ->
  faceCaptured s = false ->
  truthy (snd (detectPose env s)) = true ->
  (channelsWithin 0 49 data ->
     captureFace env s
       = (setHeadMovementStatus msgLowLight (fst (detectPose env s)), PoorLighting)) /\
  (channelsWithin 201 255 data ->
     captureFace env s
       = (setHeadMovementStatus msgHighLight (fst (detectPose env s)), PoorLighting)).
Proof.
  intros Hlevel Hne Hflag Hcentered.
  pose proof (inject_length_pos data Hne) as Hlen.
  rewrite (captureFace_measured env s Hflag Hcentered), Hlevel.
  unfold getBrightness, totalBrightness. split; intros Hall.
  - destruct (brightnessLoop_bounds 0 49 data 0 Hall) as [_ Hhi].
    assert (E : num_lt (fold_left (fun total p => total + pixelBrightness p) data 0
                          / inject_Z (Z.of_nat (length data))) 50 = true).
    { apply num_lt_iff. apply Qlt_shift_div_r; [exact Hlen|].
      change (inject_Z 49) with 49 in Hhi. lra. }
    rewrite E. reflexivity.
  - destruct (brightnessLoop_bounds 201 255 data 0 Hall) as [Hlo _].
    change (inject_Z 201) with 201 in Hlo.
    assert (E1 : num_lt (fold_left (fun total p => total + pixelBrightness p) data 0
                           / inject_Z (Z.of_nat (length data))) 50 = false).
    { apply num_lt_false_iff. apply Qle_shift_div_l; [exact Hlen | lra]. }
    assert (E2 : num_lt 200 (fold_left (fun total p => total + pixelBrightness p) data 0
                               / inject_Z (Z.of_nat (length data))) = true).
    { apply num_lt_iff. apply Qlt_shift_div_l; [exact Hlen | lra]. }
    rewrite E1, E2. reflexivity.
Qed.

(** A centred head in front of an almost black frame, with a face the
    detector would accept. *)
Lemma captureFace_dark_or_glaring_frame_witness :
  snd (captureFace
         (scene [centredPose] [] (Some candidateFace)
            (getBrightness (Some [mkPixel 10 20 30 255; mkPixel 0 49 5 255])))
         (initialState ∅))
  = PoorLighting.
Proof.
  rewrite (proj1 (captureFace_dark_or_glaring_frame
                    (scene [centredPose] [] (Some candidateFace)
                       (getBrightness (Some [mkPixel 10 20 30 255; mkPixel 0 49 5 255])))
                    (initialState ∅)
                    [mkPixel 10 20 30 255; mkPixel 0 49 5 255]
                    eq_refl ltac:(discriminate) eq_refl ltac:(vm_compute; reflexivity))).
  - reflexivity.
  - repeat constructor; simpl; lia.
Defined.

(** ** Detecting forbidden objects *)

Lemma includes_In (classes : list string) (name : string) :
  includes classes (Some name) = true <-> In name classes.
Proof.
  simpl. rewrite existsb_exists. split.
  - intros (x & Hin & Heq). apply String.eqb_eq in Heq. subst. exact Hin.
  - intros Hin. exists name. split; [exact Hin | apply String.eqb_refl].
Qed.

(** X4. When the object detector is ready, the labels [detectObjects] stores
    are exactly the lower-cased first categories of the detections that are
    in the disallowed list: a label outside the list is never stored, a
    detection without category is skipped, and letter case does not matter. *)
Theorem detectObjects_labels (env : Env) (s : AppState) (label : string) :
  objectsReady env = true ->
  (In label (detectedNotAllowedObjects (detectObjects env s)) <->
   In label notAllowedClasses /\
   exists name, In (Some name) (objectResult env) /\ toLowerCase name = label).
Proof.
  intros Hready. unfold detectObjects. rewrite Hready. simpl.
  rewrite <- list_elem_of_In, list_elem_of_omap. split.
  - intros (x & Hx & Hsome). subst x.
    apply list_elem_of_filter in Hx. destruct Hx as [Hinc Hx].
    apply includes_In in Hinc. split; [exact Hinc|].
    apply list_elem_of_In, in_map_iff in Hx. destruct Hx as (raw & Hraw & Hin).
    destruct raw as [name|]; [|discriminate].
    exists name. split; [exact Hin | simpl in Hraw; congruence].
  - intros (Hclass & name & Hin & Hlow).
    exists (Some label). split; [|reflexivity].
    apply list_elem_of_filter. split; [apply includes_In, Hclass|].
    apply list_elem_of_In, in_map_iff. exists (Some name).
    split; [simpl; rewrite Hlow; reflexivity | exact Hin].
Qed.

(** A phone labelled in capitals is stored in lower case; a person is not stored. *)
Lemma detectObjects_labels_witness :
  In "cell phone"
    (detectedNotAllowedObjects
       (detectObjects
          (mkEnv true true true (Some readyVideo) [] [] None 100
             [Some "person"; None; Some "Cell Phone"])
          (initialState ∅))) /\
  ~ In "person"
    (detectedNotAllowedObjects
       (detectObjects
          (mkEnv true true true (Some readyVideo) [] [] None 100
             [Some "person"; None; Some "Cell Phone"])
          (initialState ∅))).
Proof.
  split.
  - apply (detectObjects_labels
             (mkEnv true true true (Some readyVideo) [] [] None 100
                [Some "person"; None; Some "Cell Phone"])
             (initialState ∅) "cell phone" eq_refl).
    split.
    + left. reflexivity.
    + exists "Cell Phone". split; [right; right; left; reflexivity | reflexivity].
  - intros Hin.
    apply (detectObjects_labels
             (mkEnv true true true (Some readyVideo) [] [] None 100
                [Some "person"; None; Some "Cell Phone"])
             (initialState ∅) "person" eq_refl) in Hin.
    destruct Hin as [Hclass _]. simpl in Hclass.
    repeat (destruct Hclass as [Hclass|Hclass]; [discriminate|]). exact Hclass.
Defined.

(** ** Ties between faces *)

(** The result of the [reduce] splits the array: strictly farther faces
    before it, faces at least as far after it. *)
Lemma reduce_closer_first (video : Video) (rest : list Detection) (first : Detection) :
  exists before after,
    first :: rest = before ++ fold_left (closer video) rest first :: after /\
    Forall (fun d => manhattan video (fold_left (closer video) rest first)
                       < manhattan video d) before /\
    Forall (fun d => manhattan video (fold_left (closer video) rest first)
                       <= manhattan video d) after.
Proof.
  induction rest as [|x rest IH] using rev_ind.
  - exists [], []. simpl. repeat split; constructor.
  - destruct IH as (before & after & Hsplit & Hbefore & Hafter).
    rewrite fold_left_app. simpl. unfold closer at 1 3 5.
    destruct (num_lt (manhattan video x)
                (manhattan video (fold_left (closer video) rest first))) eqn:E.
    + apply num_lt_iff in E.
      exists (first :: rest), []. split; [|split].
      * rewrite app_comm_cons. reflexivity.
      * rewrite Hsplit. apply Forall_app. split; [|constructor].
        -- eapply Forall_impl; [exact Hbefore|].
           intros d Hd. simpl in Hd. apply (Qlt_trans _ _ _ E Hd).
        -- exact E.
        -- eapply Forall_impl; [exact Hafter|].
           intros d Hd. simpl in Hd. apply (Qlt_le_trans _ _ _ E Hd).
      * constructor.
    + apply num_lt_false_iff in E.
      exists before, (after ++ [x]). split; [|split].
      * rewrite app_comm_cons, Hsplit, <- app_assoc. reflexivity.
      * exact Hbefore.
      * apply Forall_app. split; [exact Hafter|]. constructor; [exact E|constructor].
Qed.

(** X5. Among the detected faces, the one [verifyFace] selects is the first
    of the closest: every face listed before it is strictly farther from the
    frame centre, every face listed after it is at least as far. *)
Theorem centeredFace_first_closest (video : Video) (detections : list Detection) :
  detections <> [] ->
  exists face before after,
    centeredFace video detections = Some face /\
    detections = before ++ face :: after /\
    Forall (fun d => manhattan video face < manhattan video d) before /\
    Forall (fun d => manhattan video face <= manhattan video d) after.
Proof.
  destruct detections as [|first rest]; [congruence|]. intros _.
  destruct (reduce_closer_first video rest first) as (before & after & Hsplit & Hb & Ha).
  exists (fold_left (closer video) rest first), before, after.
  split; [|split; [exact Hsplit | split; [exact Hb | exact Ha]]].
  unfold centeredFace. destruct rest; reflexivity.
Qed.

(** Two faces at the same distance from the centre: nothing strictly
    farther can precede the selected one, so it is the first. *)
Lemma centeredFace_first_closest_witness :
  centeredFace readyVideo [strangerFace; ownFace] = Some strangerFace.
Proof.
  destruct (centeredFace_first_closest readyVideo [strangerFace; ownFace])
    as (face & before & after & Hsel & Hsplit & Hbefore & _); [discriminate|].
  rewrite Hsel. f_equal.
  destruct before as [|b [|c before]]; simpl in Hsplit.
  - congruence.
  - injection Hsplit as Hb0 Hface Hafter. subst b face.
    exfalso. inversion Hbefore as [|? ? Hb _]. vm_compute in Hb. discriminate.
  - injection Hsplit as _ _ Hnil. destruct before; discriminate.
Defined.

(** ** Head movement *)

Lemma detectPose_movements (env : Env) (s : AppState) :
  poseReady env = true -> poseResult env <> [] ->
  horizontalMovement (fst (detectPose env s)) =
    loc_horizontalMovement
      (fold_left poseStep (poseResult env) (mkPoseLocals false 0 0 (localStorage s))) /\
  verticalMovement (fst (detectPose env s)) =
    loc_verticalMovement
      (fold_left poseStep (poseResult env) (mkPoseLocals false 0 0 (localStorage s))).
Proof.
  intros Hready Hne. apply length_positive in Hne.
  unfold detectPose. rewrite Hready, Hne. simpl. split; reflexivity.
Qed.

Lemma abs_self (a : Q) : Qabs (a - a) == 0.
Proof.
  assert (E : a - a == 0) by ring. rewrite E. reflexivity.
Qed.

(** Both movements vanish when the last pose is centred. *)
Lemma detectPose_centred_zero (env : Env) (s : AppState)
    (front : list Pose) (final : Pose) :
  poseReady env = true ->
  poseResult env = front ++ [final] ->
  noseCentered (nose final) = true ->
  horizontalMovement (fst (detectPose env s)) == 0 /\
  verticalMovement (fst (detectPose env s)) == 0.
Proof.
  intros Hready Hres Hc.
  assert (Hne : poseResult env <> []).
  { rewrite Hres. destruct front; discriminate. }
  destruct (detectPose_movements env s Hready Hne) as [Hh Hv].
  rewrite Hres, fold_left_app in Hh, Hv. simpl in Hh, Hv.
  unfold poseStep, refreshReference in Hh, Hv. rewrite Hc in Hh, Hv.
  rewrite Hh, Hv.
  destruct (storedReference _); simpl; split; apply abs_self.
Qed.

Lemma below_threshold (h v : Q) :
  h == 0 -> v == 0 -> num_lt 0.02 h || num_lt 0.02 v = false.
Proof.
  intros Hh Hv. apply orb_false_iff.
  split; apply num_lt_false_iff; [rewrite Hh | rewrite Hv]; lra.
Qed.

(** X6. When the last detected pose is centred, both movements are zero at
    the end of [detectPose]: the reference has just been moved to that nose,
    so a centred head never exceeds the movement threshold. *)
Theorem detectPose_centred_no_movement (env : Env) (s : AppState)
    (front : list Pose) (final : Pose) :
  poseReady env = true ->
  poseResult env = front ++ [final] ->
  noseCentered (nose final) = true ->
  horizontalMovement (fst (detectPose env s)) == 0 /\
  verticalMovement (fst (detectPose env s)) == 0 /\
  num_lt 0.02 (horizontalMovement (fst (detectPose env s)))
    || num_lt 0.02 (verticalMovement (fst (detectPose env s))) = false.
Proof.
  intros Hready Hres Hc.
  destruct (detectPose_centred_zero env s front final Hready Hres Hc) as [H1 H2].
  split; [exact H1|]. split; [exact H2|]. apply below_threshold; assumption.
Qed.

(** A pose off to the side and then a centred one, with an old reference
    far away in the store. *)
Lemma detectPose_centred_no_movement_witness :
  horizontalMovement
    (fst (detectPose (posesOnly [asidePose; centredPose])
            (initialState {[ referenceNosePosition := StoredPoint (mkPoint 0.1 0.1) ]})))
  == 0.
Proof.
  apply (detectPose_centred_no_movement
           (posesOnly [asidePose; centredPose])
           (initialState {[ referenceNosePosition := StoredPoint (mkPoint 0.1 0.1) ]})
           [asidePose] centredPose eq_refl eq_refl eq_refl).
Defined.

Lemma poseLoop_store_kept (poses : list Pose) (acc : PoseLocals) (r : Point) :
  Forall (fun p => noseCentered (nose p) = false) poses ->
  storedReference (loc_store acc) = Some r ->
  loc_store (fold_left poseStep poses acc) = loc_store acc.
Proof.
  intros Hall. revert acc.
  induction Hall as [|p poses Hp _ IH]; intros acc Hr; simpl.
  - reflexivity.
  - rewrite IH; [apply (poseStep_reference_kept acc p r Hp Hr)|].
    rewrite (poseStep_reference_kept acc p r Hp Hr). exact Hr.
Qed.

Lemma poseStep_movement_kept (acc : PoseLocals) (p : Pose) (r : Point) :
  noseCentered (nose p) = false ->
  storedReference (loc_store acc) = Some r ->
  loc_horizontalMovement (poseStep acc p) = Qabs (pt_x (nose p) - pt_x r) /\
  loc_verticalMovement (poseStep acc p) = Qabs (pt_y (nose p) - pt_y r).
Proof.
  intros Hc Hr. unfold poseStep, refreshReference. rewrite Hc, Hr.
  split; reflexivity.
Qed.

(** X7. With a reference in the store and no detected pose centred,
    [detectPose] leaves the store as it is and reports the distance, on each
    axis, between the nose of the last pose and that reference. *)
Theorem detectPose_drift_from_reference (env : Env) (s : AppState)
    (front : list Pose) (final : Pose) (r : Point) :
  poseReady env = true ->
  poseResult env = front ++ [final] ->
  Forall (fun p => noseCentered (nose p) = false) (front ++ [final]) ->
  storedReference (localStorage s) = Some r ->
  localStorage (fst (detectPose env s)) = localStorage s /\
  horizontalMovement (fst (detectPose env s)) = Qabs (pt_x (nose final) - pt_x r) /\
  verticalMovement (fst (detectPose env s)) = Qabs (pt_y (nose final) - pt_y r).
Proof.
  intros Hready Hres Hall Hr.
  assert (Hne : poseResult env <> []).
  { rewrite Hres. destruct front; discriminate. }
  destruct (detectPose_movements env s Hready Hne) as [Hh Hv].
  destruct (detectPose_ready env s Hready Hne) as (_ & Hstore & _).
  split.
  - rewrite Hstore, Hres.
    apply (poseLoop_store_kept (front ++ [final])
             (mkPoseLocals false 0 0 (localStorage s)) r Hall Hr).
  - apply Forall_app in Hall. destruct Hall as [Hfront Hfinal].
    inversion Hfinal as [|? ? Hc _]; subst.
    rewrite Hres, fold_left_app in Hh, Hv. cbn [fold_left] in Hh, Hv.
    pose proof (poseLoop_reference_kept front
                  (mkPoseLocals false 0 0 (localStorage s)) r Hfront Hr) as Hkept.
    destruct (poseStep_movement_kept _ final r Hc Hkept) as [Eh Ev].
    rewrite Eh in Hh. rewrite Ev in Hv. split; assumption.
Qed.

(** One pose off to the side, the reference at the frame centre: the
    horizontal movement is 0.9 - 0.5. *)
Lemma detectPose_drift_from_reference_witness :
  horizontalMovement
    (fst (detectPose (posesOnly [asidePose])
            (initialState {[ referenceNosePosition := StoredPoint (mkPoint 0.5 0.5) ]})))
  == 0.4.
Proof.
  destruct (detectPose_drift_from_reference
              (posesOnly [asidePose])
              (initialState {[ referenceNosePosition := StoredPoint (mkPoint 0.5 0.5) ]})
              [] asidePose (mkPoint 0.5 0.5)) as (_ & Hh & _).
  - reflexivity.
  - reflexivity.
  - repeat constructor.
  - reflexivity.
  - rewrite Hh. reflexivity.
Defined.

(** ** What a tick leaves for the next warning *)

Lemma detectPose_objects (env : Env) (s : AppState) :
  detectedNotAllowedObjects (fst (detectPose env s)) = detectedNotAllowedObjects s.
Proof.
  unfold detectPose. destruct (poseReady env); reflexivity.
Qed.

Lemma verifyFace_pose_fields (euclid : Descriptor -> Descriptor -> Q) (env : Env) (s : AppState) :
  multiplePeopleDetected (verifyFace euclid env s) = multiplePeopleDetected s /\
  horizontalMovement (verifyFace euclid env s) = horizontalMovement s /\
  verticalMovement (verifyFace euclid env s) = verticalMovement s /\
  detectedNotAllowedObjects (verifyFace euclid env s) = detectedNotAllowedObjects s.
Proof.
  unfold verifyFace.
  destruct (capturedFace s); [|repeat split; reflexivity].
  destruct (webcam env) as [video|]; [|repeat split; reflexivity].
  destruct (negb (faceapiLoaded env)); [repeat split; reflexivity|].
  destruct (negb (readyState video =? 4)%Z); [repeat split; reflexivity|].
  destruct (centeredFace video (allFaces env)) as [face|]; [|repeat split; reflexivity].
  destruct (descriptor face); repeat split; reflexivity.
Qed.

Lemma detectObjects_warning_fields (env : Env) (s : AppState) :
  multiplePeopleDetected (detectObjects env s) = multiplePeopleDetected s /\
  unauthorizedPerson (detectObjects env s) = unauthorizedPerson s /\
  horizontalMovement (detectObjects env s) = horizontalMovement s /\
  verticalMovement (detectObjects env s) = verticalMovement s.
Proof.
  unfold detectObjects. destruct (objectsReady env); repeat split; reflexivity.
Qed.

(** The fields of the state after a tick of a captured session, by the
    closure that wrote them last. *)
Lemma tick_captured_fields (euclid : Descriptor -> Descriptor -> Q) (env : Env) (s : AppState) :
  isFaceCaptured s = true ->
  multiplePeopleDetected (tick euclid env s)
    = multiplePeopleDetected (fst (detectPose env s)) /\
  horizontalMovement (tick euclid env s) = horizontalMovement (fst (detectPose env s)) /\
  verticalMovement (tick euclid env s) = verticalMovement (fst (detectPose env s)) /\
  faceDetected (tick euclid env s)
    = faceDetected (verifyFace euclid env (fst (detectPose env s))) /\
  unauthorizedPerson (tick euclid env s)
    = unauthorizedPerson (verifyFace euclid env (fst (detectPose env s))) /\
  detectedNotAllowedObjects (tick euclid env s)
    = detectedNotAllowedObjects (detectObjects env s) /\
  warningMessage (tick euclid env s) = getHighestPriorityWarning s /\
  isFaceCaptured (tick euclid env s) = true.
Proof.
  intros Hcap. unfold tick. rewrite Hcap. simpl.
  destruct (detectObjects_warning_fields env (verifyFace euclid env (fst (detectPose env s))))
    as (Hm & Hu & Hh & Hv).
  destruct (verifyFace_pose_fields euclid env (fst (detectPose env s)))
    as (Hm' & Hh' & Hv' & Ho').
  destruct (detectObjects_frame env (verifyFace euclid env (fst (detectPose env s))))
    as (Hf & _ & _ & Hi).
  destruct (verifyFace_frame euclid env (fst (detectPose env s))) as (_ & _ & Hi').
  destruct (detectPose_frame env s) as (_ & Hi'' & _).
  repeat split; try congruence.
  unfold detectObjects. destruct (objectsReady env); simpl; [reflexivity|].
  rewrite Ho'. apply detectPose_objects.
Qed.

(** X8. A tick that sees two or more poses leaves a state whose warning is
    the one about several people, whatever else is in the frame; in a
    captured session the next tick displays it. *)
Theorem tick_several_people (euclid : Descriptor -> Descriptor -> Q) (env : Env) (s : AppState) :
  poseReady env = true ->
  (1 < length (poseResult env))%nat ->
  getHighestPriorityWarning (tick euclid env s) = msgMultiplePeople /\
  (isFaceCaptured s = true ->
   forall env', warningMessage (tick euclid env' (tick euclid env s)) = msgMultiplePeople).
Proof.
  intros Hready Hlen.
  assert (Hne : poseResult env <> []).
  { destruct (poseResult env); [inversion Hlen | discriminate]. }
  destruct (detectPose_ready env s Hready Hne) as (_ & _ & _ & Hmulti).
  apply Nat.ltb_lt in Hlen. rewrite Hlen in Hmulti.
  assert (Hwarn : getHighestPriorityWarning (tick euclid env s) = msgMultiplePeople).
  { unfold getHighestPriorityWarning.
    destruct (isFaceCaptured s) eqn:Hcap.
    - destruct (tick_captured_fields euclid env s Hcap) as (-> & _). rewrite Hmulti.
      reflexivity.
    - unfold tick. rewrite Hcap, Hmulti. reflexivity. }
  split; [exact Hwarn|].
  intros Hcap env'.
  destruct (tick_captured_fields euclid env s Hcap) as (_ & _ & _ & _ & _ & _ & _ & Hcap').
  destruct (tick_captured_fields euclid env' (tick euclid env s) Hcap')
    as (_ & _ & _ & _ & _ & _ & -> & _).
  exact Hwarn.
Qed.

(** The test-taker and a second person in the frame of a captured session. *)
Lemma tick_several_people_witness :
  warningMessage
    (tick coordinateDistance ownScene
       (tick coordinateDistance (scene [centredPose; asidePose] [ownFace] None 100)
          capturedState))
  = msgMultiplePeople.
Proof.
  destruct (tick_several_people coordinateDistance
              (scene [centredPose; asidePose] [ownFace] None 100) capturedState)
    as [_ Hnext].
  - reflexivity.
  - simpl. lia.
  - apply Hnext. reflexivity.
Defined.

(** X9. In a captured session, a tick that sees no pose and no face clears
    [faceDetected] and leaves the unauthorised flag alone; the warning of the
    resulting state is "no face", unless the flag was up, in which case it
    stays "unauthorised person". *)
Theorem tick_empty_frame (euclid : Descriptor -> Descriptor -> Q) (env : Env) (s : AppState) :
  isFaceCaptured s = true ->
  poseReady env = true ->
  poseResult env = [] ->
  allFaces env = [] ->
  faceDetected (tick euclid env s) = false /\
  unauthorizedPerson (tick euclid env s) = unauthorizedPerson s /\
  getHighestPriorityWarning (tick euclid env s)
    = if unauthorizedPerson s then msgUnauthorized else msgNoFace.
Proof.
  intros Hcap Hready Hposes Hfaces.
  destruct (tick_captured_fields euclid env s Hcap) as (Hm & _ & _ & Hf & Hu & _).
  rewrite (verifyFace_no_faces euclid env _ Hfaces) in Hf, Hu.
  destruct (detectPose_frame env s) as (_ & _ & _ & Hu' & _).
  assert (Hpose : faceDetected (fst (detectPose env s)) = false /\
                  multiplePeopleDetected (fst (detectPose env s)) = false).
  { unfold detectPose. rewrite Hready, Hposes. split; reflexivity. }
  destruct Hpose as [Hf' Hm'].
  rewrite Hf' in Hf. rewrite Hm' in Hm. rewrite Hu' in Hu.
  split; [exact Hf|]. split; [exact Hu|].
  unfold getHighestPriorityWarning. rewrite Hm, Hu, Hf.
  destruct (unauthorizedPerson s); reflexivity.
Qed.

(** The test-taker leaves the frame: "no face". A stranger was flagged and
    leaves the frame: still "unauthorised person". *)
Lemma tick_empty_frame_witness :
  getHighestPriorityWarning (tick coordinateDistance (posesOnly []) capturedState)
    = msgNoFace /\
  getHighestPriorityWarning
    (tick coordinateDistance (posesOnly [])
       (tick coordinateDistance strangerScene capturedState))
    = msgUnauthorized.
Proof.
  split.
  - rewrite (proj2 (proj2 (tick_empty_frame coordinateDistance (posesOnly []) capturedState
                             eq_refl eq_refl eq_refl eq_refl))).
    reflexivity.
  - rewrite (proj2 (proj2 (tick_empty_frame coordinateDistance (posesOnly [])
                             (tick coordinateDistance strangerScene capturedState)
                             eq_refl eq_refl eq_refl eq_refl))).
    vm_compute. reflexivity.
Defined.

Lemma single_pose_not_multiple (env : Env) (s : AppState) :
  poseReady env = true ->
  (length (poseResult env) <= 1)%nat ->
  multiplePeopleDetected (fst (detectPose env s)) = false.
Proof.
  intros Hready Hlen. unfold detectPose. rewrite Hready. simpl.
  apply andb_false_iff. right. apply Nat.ltb_ge, Hlen.
Qed.

(** X10. In a captured session with at most one pose in the frame, a tick
    whose selected face lies farther than 0.6 from the baseline leaves a
    state whose warning is "unauthorised person". *)
Theorem tick_stranger (euclid : Descriptor -> Descriptor -> Q) (env : Env) (s : AppState)
    (baseline d : Descriptor) (video : Video) (face : Detection) :
  isFaceCaptured s = true ->
  capturedFace s = Some baseline ->
  poseReady env = true ->
  (length (poseResult env) <= 1)%nat ->
  webcam env = Some video ->
  faceapiLoaded env = true ->
  centeredFace video (allFaces env) = Some face ->
  descriptor face = Some d ->
  0.6 < euclid baseline d ->
  getHighestPriorityWarning (tick euclid env s) = msgUnauthorized.
Proof.
  intros Hcap Hbase Hready Hlen Hcam Hloaded Hsel Hd Hfar.
  destruct (tick_captured_fields euclid env s Hcap) as (Hm & _ & _ & _ & Hu & _).
  rewrite (single_pose_not_multiple env s Hready Hlen) in Hm.
  destruct (detectPose_frame env s) as (Hbase' & _).
  rewrite <- Hbase' in Hbase.
  rewrite (verifyFace_selected euclid env _ baseline video face
             Hbase Hcam Hloaded (poseReady_video env video Hready Hcam) Hsel), Hd in Hu.
  simpl in Hu. apply num_lt_iff in Hfar. rewrite Hfar in Hu.
  unfold getHighestPriorityWarning. rewrite Hm, Hu. reflexivity.
Qed.

(** A stranger, centred, in front of a captured session. *)
Lemma tick_stranger_witness :
  getHighestPriorityWarning (tick coordinateDistance strangerScene capturedState)
    = msgUnauthorized.
Proof.
  apply (tick_stranger coordinateDistance strangerScene capturedState
           [0.1] [1.0] readyVideo strangerFace);
    reflexivity || (simpl; lia).
Defined.

Lemma no_forbidden_object (env : Env) (s : AppState) :
  objectsReady env = true ->
  Forall (fun name => includes notAllowedClasses (option_map toLowerCase name) = false)
    (objectResult env) ->
  detectedNotAllowedObjects (detectObjects env s) = [].
Proof.
  intros Hready Hall. unfold detectObjects. rewrite Hready. simpl.
  induction Hall as [|name names Hname _ IH]; [reflexivity|].
  simpl. rewrite filter_cons.
  destruct (decide (includes notAllowedClasses (option_map toLowerCase name) = true))
    as [Hyes|_]; [congruence | exact IH].
Qed.

(** X11. In a captured session, a tick that sees one centred pose, a
    selected face within 0.6 of the baseline and no disallowed object leaves
    a state without warning. *)
Theorem tick_all_clear (euclid : Descriptor -> Descriptor -> Q) (env : Env) (s : AppState)
    (baseline d : Descriptor) (video : Video) (face : Detection) (p : Pose) :
  isFaceCaptured s = true ->
  capturedFace s = Some baseline ->
  poseReady env = true ->
  poseResult env = [p] ->
  noseCentered (nose p) = true ->
  webcam env = Some video ->
  faceapiLoaded env = true ->
  centeredFace video (allFaces env) = Some face ->
  descriptor face = Some d ->
  euclid baseline d <= 0.6 ->
  objectsReady env = true ->
  Forall (fun name => includes notAllowedClasses (option_map toLowerCase name) = false)
    (objectResult env) ->
  getHighestPriorityWarning (tick euclid env s) = "".
Proof.
  intros Hcap Hbase Hready Hposes Hc Hcam Hloaded Hsel Hd Hnear Hobj Hnone.
  destruct (tick_captured_fields euclid env s Hcap) as (Hm & Hh & Hv & Hf & Hu & Ho & _).
  assert (Hlen : (length (poseResult env) <= 1)%nat) by (rewrite Hposes; simpl; lia).
  rewrite (single_pose_not_multiple env s Hready Hlen) in Hm.
  destruct (detectPose_frame env s) as (Hbase' & _).
  rewrite <- Hbase' in Hbase.
  rewrite (verifyFace_selected euclid env _ baseline video face
             Hbase Hcam Hloaded (poseReady_video env video Hready Hcam) Hsel), Hd in Hf, Hu.
  simpl in Hf, Hu. apply num_lt_false_iff in Hnear. rewrite Hnear in Hu.
  rewrite (no_forbidden_object env s Hobj Hnone) in Ho.
  destruct (detectPose_centred_zero env s [] p Hready Hposes Hc) as [Hh0 Hv0].
  rewrite <- Hh in Hh0. rewrite <- Hv in Hv0.
  unfold getHighestPriorityWarning. rewrite Hm, Hu, Hf, Ho. simpl.
  rewrite (below_threshold _ _ Hh0 Hv0). reflexivity.
Qed.

(** The test-taker, centred, with a cup on the desk. *)
Lemma tick_all_clear_witness :
  getHighestPriorityWarning
    (tick coordinateDistance
       (mkEnv true true true (Some readyVideo) [centredPose] [ownFace] None 100 [Some "cup"])
       capturedState)
  = "".
Proof.
  apply (tick_all_clear coordinateDistance
           (mkEnv true true true (Some readyVideo) [centredPose] [ownFace] None 100 [Some "cup"])
           capturedState [0.1] [0.1] readyVideo ownFace centredPose);
    first [reflexivity | vm_compute; discriminate | repeat constructor].
Defined.

(** [verifyFace] either leaves the unauthorised flag alone or writes the
    outcome of a comparison. *)
Lemma verifyFace_flag_cases (euclid : Descriptor -> Descriptor -> Q) (env : Env) (s : AppState) :
  unauthorizedPerson (verifyFace euclid env s) = unauthorizedPerson s \/
  exists baseline video face d,
    capturedFace s = Some baseline /\ webcam env = Some video /\
    centeredFace video (allFaces env) = Some face /\ descriptor face = Some d /\
    unauthorizedPerson (verifyFace euclid env s) = num_lt 0.6 (euclid baseline d).
Proof.
  unfold verifyFace.
  destruct (capturedFace s) as [baseline|]; [|left; reflexivity].
  destruct (webcam env) as [video|]; [|left; reflexivity].
  destruct (negb (faceapiLoaded env)); [left; reflexivity|].
  destruct (negb (readyState video =? 4)%Z); [left; reflexivity|].
  destruct (centeredFace video (allFaces env)) as [face|] eqn:Hsel; [|left; reflexivity].
  destruct (descriptor face) as [d|] eqn:Hd; [|left; reflexivity].
  right. exists baseline, video, face, d. repeat split; assumption || reflexivity.
Qed.

(** X12. A tick changes the unauthorised flag only in a captured session in
    which a face with a descriptor is selected, and then the flag tells
    whether that descriptor lies farther than 0.6 from the baseline. *)
Theorem tick_flag_changes_by_comparison (euclid : Descriptor -> Descriptor -> Q)
    (env : Env) (s : AppState) :
  unauthorizedPerson (tick euclid env s) <> unauthorizedPerson s ->
  isFaceCaptured s = true /\
  exists baseline video face d,
    capturedFace s = Some baseline /\ webcam env = Some video /\
    centeredFace video (allFaces env) = Some face /\ descriptor face = Some d /\
    unauthorizedPerson (tick euclid env s) = num_lt 0.6 (euclid baseline d).
Proof.
  intros Hchange.
  destruct (detectPose_frame env s) as (Hbase & _ & _ & Hu0 & _).
  destruct (isFaceCaptured s) eqn:Hcap.
  - split; [reflexivity|].
    destruct (tick_captured_fields euclid env s Hcap) as (_ & _ & _ & _ & Hu & _).
    destruct (verifyFace_flag_cases euclid env (fst (detectPose env s)))
      as [Hsame | (baseline & video & face & d & H1 & H2 & H3 & H4 & H5)].
    + exfalso. apply Hchange. congruence.
    + exists baseline, video, face, d. rewrite Hbase in H1.
      repeat split; try assumption. congruence.
  - exfalso. apply Hchange. unfold tick. rewrite Hcap. exact Hu0.
Qed.

(** The flag goes up in front of a stranger: the session is captured. *)
Lemma tick_flag_changes_by_comparison_witness :
  isFaceCaptured capturedState = true.
Proof.
  apply (tick_flag_changes_by_comparison coordinateDistance strangerScene capturedState).
  vm_compute. discriminate.
Defined.

(** ** When a capture succeeds *)

(** X13. A capture attempt succeeds exactly when nothing was captured
    before, [detectPose] reports a centred head, the brightness lies between
    50 and 200 inclusive, and the single-face detector finds a face. *)
Theorem captureFace_succeeds_iff (env : Env) (s : AppState) :
  snd (captureFace env s) = Captured <->
  faceCaptured s = false /\
  truthy (snd (detectPose env s)) = true /\
  50 <= brightness env /\ brightness env <= 200 /\
  singleFace env <> None.
Proof.
  split.
  - unfold captureFace.
    destruct (faceCaptured s); [discriminate|].
    destruct (detectPose env s) as [s1 isCentered]. simpl.
    destruct (truthy isCentered); simpl; [|discriminate].
    destruct (webcam env); [|discriminate].
    destruct (num_lt (brightness env) 50) eqn:E1; [discriminate|].
    destruct (num_lt 200 (brightness env)) eqn:E2; [discriminate|].
    destruct (singleFace env); [|discriminate].
    intros _. apply num_lt_false_iff in E1, E2. repeat split; try assumption.
    discriminate.
  - intros (Hflag & Hcentered & H1 & H2 & Hface).
    rewrite (captureFace_measured env s Hflag Hcentered).
    apply num_lt_false_iff in H1, H2. rewrite H1, H2.
    destruct (singleFace env); [reflexivity | congruence].
Qed.

(** At brightness exactly 50 and exactly 200 a centred attempt with a face
    still succeeds. *)
Lemma captureFace_succeeds_iff_witness :
  snd (captureFace (scene [centredPose] [] (Some candidateFace) 50) (initialState ∅))
    = Captured /\
  snd (captureFace (scene [centredPose] [] (Some candidateFace) 200) (initialState ∅))
    = Captured.
Proof.
  split.
  - apply (proj2 (captureFace_succeeds_iff
                    (scene [centredPose] [] (Some candidateFace) 50) (initialState ∅))).
    repeat split; first [reflexivity | vm_compute; discriminate | discriminate].
  - apply (proj2 (captureFace_succeeds_iff
                    (scene [centredPose] [] (Some candidateFace) 200) (initialState ∅))).
    repeat split; first [reflexivity | vm_compute; discriminate | discriminate].
Defined.





(** X15. [captureFace] never sets the status to the message of line 107
    ("Face not centered. Please align properly."): that branch is only
    reached after the centring check of line 69 has passed. *)
Theorem captureFace_never_reports_not_centered (env : Env) (s : AppState) :
  headMovementStatus s <> msgNotCentered ->
  headMovementStatus (fst (captureFace env s)) <> msgNotCentered.
Proof.
  intros Hold.
  destruct (detectPose_frame env s) as (_ & _ & _ & _ & Hstatus & _).
  unfold captureFace.
  destruct (faceCaptured s); [exact Hold|].
  destruct (detectPose env s) as [s1 isCentered]. simpl in *.
  destruct (truthy isCentered); simpl; [|discriminate].
  destruct (webcam env); [|simpl; rewrite Hstatus; exact Hold].
  destruct (num_lt (brightness env) 50); [discriminate|].
  destruct (num_lt 200 (brightness env)); [discriminate|].
  destruct (singleFace env); [discriminate|].
  simpl. unfold notFoundMessage. destruct (num_lt (brightness env) 70); discriminate.
Qed.

(** A centred head, medium brightness, no face found: the status is about
    visibility. *)
Lemma captureFace_never_reports_not_centered_witness :
  headMovementStatus (fst (captureFace (posesOnly [centredPose]) (initialState ∅)))
    <> msgNotCentered.
Proof.
  apply (captureFace_never_reports_not_centered (posesOnly [centredPose]) (initialState ∅)).
  discriminate.
Defined.

(** X16. A capture that succeeds in the first variant succeeds in the second
    one with the same resulting state; a capture that succeeds in the second
    variant succeeds in the first one, with the same state, when the
    brightness lies between 50 and 200. *)
Theorem variants_capture_alike (env : Env) (s s' : AppState) :
  (captureFace env s = (s', Captured) ->
     SecondVariant.captureFace env s = (s', Captured)) /\
  (SecondVariant.captureFace env s = (s', Captured) ->
   50 <= brightness env -> brightness env <= 200 ->
     captureFace env s = (s', Captured)).
Proof.
  unfold captureFace, SecondVariant.captureFace.
  destruct (faceCaptured s); [split; discriminate|].
  destruct (detectPose env s) as [s1 isCentered].
  destruct (negb (truthy isCentered)); [split; discriminate|].
  destruct (webcam env); [|split; discriminate].
  split.
  - destruct (num_lt (brightness env) 50); [discriminate|].
    destruct (num_lt 200 (brightness env)); [discriminate|].
    destruct (singleFace env); [intros H; exact H | discriminate].
  - intros H H1 H2. apply num_lt_false_iff in H1, H2. rewrite H1, H2.
    destruct (singleFace env); [exact H | discriminate].
Qed.

(** The capture of a fresh session is also a capture of the second variant. *)
Lemma variants_capture_alike_witness :
  SecondVariant.captureFace captureScene (initialState ∅) = (capturedState, Captured).
Proof.
  apply (proj1 (variants_capture_alike captureScene (initialState ∅) capturedState)).
  reflexivity.
Defined.

(** ** The session as a whole *)










(** A capture, then ticks and a second capture request in front of a
    stranger: the descriptor is still the first one. *)
Lemma baseline_set_at_most_once_witness :
  capturedFace
    (run coordinateDistance
       ([RequestCapture captureScene] ++
        [Tick strangerScene;
         RequestCapture (scene [centredPose] [] (Some (mkSingleFace [1.0] [])) 100)])
       (initialState ∅))
  = Some [0.1].
Proof.
  apply (baseline_set_at_most_once coordinateDistance ∅ [RequestCapture captureScene]).
  reflexivity.
Defined.

(** ** The two variants of the object rule *)

Lemma included_is_some (name : option string) :
  includes notAllowedClasses name = true -> exists label, name = Some label.
Proof.
  destruct name as [label|]; [intros _; exists label; reflexivity | discriminate].
Qed.

(** The boolean the second variant stores tells whether the list the first
    variant stores is non-empty. *)
Lemma detected_flag_matches_list (raw : list (option string)) :
  length
    (filter (fun name => includes notAllowedClasses (option_map toLowerCase name) = true) raw)
  = length
      (omap (fun name => name)
         (filter (fun name => includes notAllowedClasses name = true)
            (map (option_map toLowerCase) raw))).
Proof.
  induction raw as [|name raw IH]; [reflexivity|].
  simpl map. rewrite !filter_cons.
  destruct (decide (includes notAllowedClasses (option_map toLowerCase name) = true))
    as [Hyes|Hno].
  - destruct (included_is_some _ Hyes) as [label Hlabel].
    simpl length. rewrite Hlabel. simpl. rewrite IH. reflexivity.
  - exact IH.
Qed.

(** X18. On the same frame the two variants fire the object rule together:
    the boolean the second variant stores is true exactly when the list the
    first variant stores is non-empty, and with that boolean the second
    cascade returns the message of the first one, except that the object
    rule answers with a fixed sentence instead of the enumeration. *)
Theorem variants_object_rule (env : Env) (s : AppState)
    (cell : SecondVariantObjects.ObjectsCell) :
  objectsReady env = true ->
  SecondVariantObjects.detectObjects env cell
    = SecondVariantObjects.Flag
        (0 <? length (detectedNotAllowedObjects (detectObjects env s)))%nat /\
  SecondVariantObjects.getHighestPriorityWarning s
      (SecondVariantObjects.Flag (0 <? length (detectedNotAllowedObjects s))%nat)
    = (if negb (multiplePeopleDetected s) && negb (unauthorizedPerson s)
          && faceDetected s && (0 <? length (detectedNotAllowedObjects s))%nat
       then SecondVariantObjects.msgObjectNotAllowed
       else getHighestPriorityWarning s) /\
  (negb (multiplePeopleDetected s) && negb (unauthorizedPerson s)
     && faceDetected s && (0 <? length (detectedNotAllowedObjects s))%nat = true ->
   getHighestPriorityWarning s = msgObjects (detectedNotAllowedObjects s)).
Proof.
  intros Hready. split; [|split].
  - unfold SecondVariantObjects.detectObjects, detectObjects. rewrite Hready. simpl.
    rewrite detected_flag_matches_list. reflexivity.
  - unfold SecondVariantObjects.getHighestPriorityWarning, getHighestPriorityWarning.
    destruct (multiplePeopleDetected s), (unauthorizedPerson s), (faceDetected s); simpl;
      try reflexivity.
    destruct (0 <? length (detectedNotAllowedObjects s))%nat; reflexivity.
  - unfold getHighestPriorityWarning.
    destruct (multiplePeopleDetected s), (unauthorizedPerson s), (faceDetected s); simpl;
      try discriminate.
    intros ->. reflexivity.
Qed.

(** A tablet in the frame: the second variant stores [true]. *)
Lemma variants_object_rule_witness :
  SecondVariantObjects.detectObjects
    (mkEnv true true true (Some readyVideo) [] [] None 100 [Some "Tablet"])
    SecondVariantObjects.InitialArray
  = SecondVariantObjects.Flag true.
Proof.
  rewrite (proj1 (variants_object_rule
                    (mkEnv true true true (Some readyVideo) [] [] None 100 [Some "Tablet"])
                    (initialState ∅) SecondVariantObjects.InitialArray eq_refl)).
  reflexivity.
Defined.

(** X19. Before the first object detection has written its cell, the second
    variant already warns about an object whenever a single, authorised face
    is present, while the first variant, on the same state, does not: the
    cell starts as an empty array, which the second cascade tests for
    truthiness and the first for length. *)
Theorem second_variant_warns_before_detection (s : AppState) :
  multiplePeopleDetected s = false ->
  unauthorizedPerson s = false ->
  faceDetected s = true ->
  detectedNotAllowedObjects s = [] ->
  SecondVariantObjects.getHighestPriorityWarning s SecondVariantObjects.InitialArray
    = SecondVariantObjects.msgObjectNotAllowed /\
  getHighestPriorityWarning s <> SecondVariantObjects.msgObjectNotAllowed /\
  getHighestPriorityWarning s <> msgObjects (detectedNotAllowedObjects s).
Proof.
  intros Hm Hu Hf Ho.
  unfold SecondVariantObjects.getHighestPriorityWarning, getHighestPriorityWarning.
  rewrite Hm, Hu, Hf, Ho. simpl.
  split; [reflexivity|].
  destruct (num_lt 0.02 (horizontalMovement s) || num_lt 0.02 (verticalMovement s));
    split; discriminate.
Qed.

(** The state right after the capture of a fresh session. *)
Lemma second_variant_warns_before_detection_witness :
  SecondVariantObjects.getHighestPriorityWarning capturedState
    SecondVariantObjects.InitialArray
  = SecondVariantObjects.msgObjectNotAllowed.
Proof.
  apply (second_variant_warns_before_detection capturedState); reflexivity.
Defined.

(** ** No warning *)

(** X20. The cascade returns the empty string exactly when no rule fires:
    one person at most, nobody unauthorised, a face detected, no forbidden
    label, and neither movement above 0.02. *)
Theorem getHighestPriorityWarning_empty_iff (s : AppState) :
  getHighestPriorityWarning s = "" <->
  multiplePeopleDetected s = false /\
  unauthorizedPerson s = false /\
  faceDetected s = true /\
  detectedNotAllowedObjects s = [] /\
  horizontalMovement s <= 0.02 /\
  verticalMovement s <= 0.02.
Proof.
  unfold getHighestPriorityWarning. split.
  - destruct (multiplePeopleDetected s); [discriminate|].
    destruct (unauthorizedPerson s); [discriminate|].
    destruct (faceDetected s); [|discriminate]. simpl.
    destruct (detectedNotAllowedObjects s) as [|label labels]; [|discriminate]. simpl.
    destruct (num_lt 0.02 (horizontalMovement s)) eqn:Eh; [discriminate|].
    destruct (num_lt 0.02 (verticalMovement s)) eqn:Ev; [discriminate|].
    intros _. apply num_lt_false_iff in Eh, Ev. repeat split; assumption.
  - intros (-> & -> & -> & -> & Hh & Hv). simpl.
    apply num_lt_false_iff in Hh, Hv. rewrite Hh, Hv. reflexivity.
Qed.

(** A movement of exactly 0.02 on both axes raises no warning. *)
Lemma getHighestPriorityWarning_empty_iff_witness :
  getHighestPriorityWarning
    (mkAppState (Some [0.1]) true "" "" true false 0.02 0.02 [] true false ∅)
  = "".
Proof.
  apply (proj2 (getHighestPriorityWarning_empty_iff
                  (mkAppState (Some [0.1]) true "" "" true false 0.02 0.02 [] true false ∅))).
  repeat split; first [reflexivity | vm_compute; discriminate].
Defined.

(** ** The first reference *)

Lemma poseStep_reference_first (acc : PoseLocals) (p : Pose) :
  storedReference (loc_store acc) = None ->
  storedReference (loc_store (poseStep acc p)) = Some (nose p).
Proof.
  intros Hnone. unfold poseStep, refreshReference. rewrite Hnone, point_eta. simpl.
  apply storedReference_insert.
Qed.

Lemma poseStep_reference_some (acc : PoseLocals) (p : Pose) :
  storedReference (loc_store (poseStep acc p)) <> None.
Proof.
  destruct (storedReference (loc_store acc)) as [r|] eqn:Hr.
  - destruct (noseCentered (nose p)) eqn:Hc.
    + rewrite (poseStep_reference_refreshed acc p Hc). discriminate.
    + rewrite (poseStep_reference_kept acc p r Hc Hr), Hr. discriminate.
  - rewrite (poseStep_reference_first acc p Hr). discriminate.
Qed.

(** X22. After [detectPose] has seen at least one pose there is a reference
    head position in the store; when the store held none and no pose of the
    frame is centred, it is the nose of the first pose: the first position
    ever observed becomes the reference, centred or not. *)
Theorem detectPose_first_reference (env : Env) (s : AppState)
    (first : Pose) (rest : list Pose) :
  poseReady env = true ->
  poseResult env = first :: rest ->
  storedReference (localStorage (fst (detectPose env s))) <> None /\
  (storedReference (localStorage s) = None ->
   Forall (fun p => noseCentered (nose p) = false) (first :: rest) ->
   storedReference (localStorage (fst (detectPose env s))) = Some (nose first)).
Proof.
  intros Hready Hres.
  assert (Hne : poseResult env <> []) by (rewrite Hres; discriminate).
  destruct (detectPose_ready env s Hready Hne) as (_ & Hstore & _).
  rewrite Hstore, Hres. split.
  - destruct (exists_last (l := first :: rest)) as (front & final & ->); [discriminate|].
    rewrite fold_left_app. cbn [fold_left]. apply poseStep_reference_some.
  - intros Hnone Hall. inversion Hall as [|? ? _ Hrest]; subst. cbn [fold_left].
    apply (poseLoop_reference_kept rest _ (nose first) Hrest).
    apply poseStep_reference_first. exact Hnone.
Qed.

(** A fresh browser store and one pose off to the side: its nose is the
    reference from then on. *)
Lemma detectPose_first_reference_witness :
  storedReference (localStorage (fst (detectPose (posesOnly [asidePose]) (initialState ∅))))
  = Some (mkPoint 0.9 0.9).
Proof.
  destruct (detectPose_first_reference (posesOnly [asidePose]) (initialState ∅)
              asidePose [] eq_refl eq_refl) as [_ Hfirst].
  apply Hfirst.
  - reflexivity.
  - repeat constructor.
Defined.

(** ** Capture requests in flight *)

(** [captureFace] is its guard, the awaited [detectPose], and [captureFinish]. *)
Lemma captureFace_split (env : Env) (s : AppState) :
  captureFace env s =
    if faceCaptured s then (s, AlreadyCaptured)
    else captureFinish (snd (detectPose env s)) env (fst (detectPose env s)).
Proof.
  unfold captureFace, captureFinish.
  destruct (faceCaptured s); [reflexivity|].
  destruct (detectPose env s) as [s1 isCentered]. reflexivity.
Qed.

(** The schedule of [run] is the one of [play] in which every press is
    followed at once by its resumption. *)
Lemma play_serial (euclid : Descriptor -> Descriptor -> Q) (events : list Event) (s : AppState) :
  play euclid (concat (map serial events)) (mkSession s [])
  = mkSession (run euclid events s) [].
Proof.
  revert s. induction events as [|e events IH]; intros s; [reflexivity|].
  simpl map. simpl concat. unfold play. rewrite fold_left_app. fold (play euclid).
  assert (Hone : fold_left (act euclid) (serial e) (mkSession s [])
                 = mkSession (step euclid s e) []).
  { destruct e as [env|env]; simpl; [reflexivity|].
    rewrite captureFace_split.
    destruct (faceCaptured s); reflexivity. }
  rewrite Hone. apply IH.
Qed.

(** C4. The guard of line 66 does not prevent a second capture when two
    requests overlap. The button is pressed twice before the first request
    resumes; both presses pass line 66. When the first request resumes it
    stores the descriptor [0.1] and raises [faceCaptured]; when the second
    resumes, in front of another face, it stores [1.0] over it. *)
Theorem overlapping_captures_store_twice :
  pending (play coordinateDistance [Press captureScene; Press strangerCapture]
             (mkSession (initialState ∅) []))
    = [Some true; Some true] /\
  capturedFace
    (app (play coordinateDistance
            [Press captureScene; Press strangerCapture; Resume 0 captureScene]
            (mkSession (initialState ∅) [])))
    = Some [0.1] /\
  faceCaptured
    (app (play coordinateDistance
            [Press captureScene; Press strangerCapture; Resume 0 captureScene]
            (mkSession (initialState ∅) [])))
    = true /\
  capturedFace
    (app (play coordinateDistance
            [Press captureScene; Press strangerCapture; Resume 0 captureScene;
             Resume 0 strangerCapture]
            (mkSession (initialState ∅) [])))
    = Some [1.0].
Proof.
  repeat split; vm_compute; reflexivity.
Qed.

(** What [captureFinish] does to the descriptor and the flag. *)
Lemma captureFinish_cases (isCentered : option bool) (env : Env) (s : AppState) :
  (snd (captureFinish isCentered env s) = Captured /\
   faceCaptured (fst (captureFinish isCentered env s)) = true) \/
  (capturedFace (fst (captureFinish isCentered env s)) = capturedFace s /\
   faceCaptured (fst (captureFinish isCentered env s)) = faceCaptured s).
Proof.
  unfold captureFinish.
  destruct (negb (truthy isCentered)); [right; split; reflexivity|].
  destruct (webcam env); [|right; split; reflexivity].
  destruct (num_lt (brightness env) 50); [right; split; reflexivity|].
  destruct (num_lt 200 (brightness env)); [right; split; reflexivity|].
  destruct (singleFace env); [left | right]; split; reflexivity.
Qed.

(** In every session a stored descriptor comes with a raised flag. *)
Lemma act_flag (euclid : Descriptor -> Descriptor -> Q) (session : Session) (a : Action) :
  capturedFace (app session) = None \/ faceCaptured (app session) = true ->
  capturedFace (app (act euclid session a)) = None \/
  faceCaptured (app (act euclid session a)) = true.
Proof.
  intros Hinv. destruct a as [env|env|n env]; simpl.
  - destruct (tick_frame euclid env (app session)) as [Hc Hf]. rewrite Hc, Hf. exact Hinv.
  - destruct (faceCaptured (app session)) eqn:Hflag; [right; exact Hflag|].
    destruct (detectPose_frame env (app session)) as (Hc & _ & Hf & _). simpl.
    rewrite Hc, Hf. try rewrite Hflag. exact Hinv.
  - destruct (pending session !! n) as [isCentered|]; [|exact Hinv]. simpl.
    destruct (captureFinish_cases isCentered env (app session)) as [[_ Hf]|[Hc Hf]].
    + right. exact Hf.
    + rewrite Hc, Hf. exact Hinv.
Qed.

(** With the flag raised and no request in flight, nothing touches the
    descriptor and no request can start. *)
Lemma act_idle (euclid : Descriptor -> Descriptor -> Q) (session : Session) (a : Action) :
  faceCaptured (app session) = true ->
  pending session = [] ->
  capturedFace (app (act euclid session a)) = capturedFace (app session) /\
  faceCaptured (app (act euclid session a)) = true /\
  pending (act euclid session a) = [].
Proof.
  intros Hflag Hidle. destruct a as [env|env|n env]; simpl.
  - destruct (tick_frame euclid env (app session)) as [Hc Hf].
    repeat split; congruence.
  - rewrite Hflag. repeat split; assumption.
  - rewrite Hidle. simpl. repeat split; assumption.
Qed.

Lemma play_idle (euclid : Descriptor -> Descriptor -> Q) (actions : list Action)
    (session : Session) :
  faceCaptured (app session) = true ->
  pending session = [] ->
  capturedFace (app (play euclid actions session)) = capturedFace (app session) /\
  pending (play euclid actions session) = [].
Proof.
  revert session. induction actions as [|a actions IH]; intros session Hflag Hidle; simpl.
  - split; [reflexivity | exact Hidle].
  - destruct (act_idle euclid session a Hflag Hidle) as (Hc & Hf & Hp).
    destruct (IH (act euclid session a) Hf Hp) as [Hc' Hp'].
    split; [congruence | exact Hp'].
Qed.

(** X21. Capture requests may overlap. From the start of a session on, once
    a descriptor is stored and no capture request is suspended, the
    descriptor is final: whatever follows (ticks, presses of the button,
    resumptions), it stays the same and no request is started again. *)
Theorem baseline_final_once_idle (euclid : Descriptor -> Descriptor -> Q)
    (store : gmap string Stored) (actions more : list Action) (d : Descriptor) :
  capturedFace (app (play euclid actions (mkSession (initialState store) []))) = Some d ->
  pending (play euclid actions (mkSession (initialState store) [])) = [] ->
  capturedFace (app (play euclid (actions ++ more) (mkSession (initialState store) [])))
    = Some d /\
  pending (play euclid (actions ++ more) (mkSession (initialState store) [])) = [].
Proof.
  assert (Hinv : forall acts session,
            capturedFace (app session) = None \/ faceCaptured (app session) = true ->
            capturedFace (app (play euclid acts session)) = None \/
            faceCaptured (app (play euclid acts session)) = true).
  { induction acts as [|a acts IH]; intros session Hs; simpl; [exact Hs|].
    apply IH, act_flag, Hs. }
  intros Hd Hidle. unfold play in *. rewrite fold_left_app.
  destruct (Hinv actions (mkSession (initialState store) []) (or_introl eq_refl))
    as [Hnone|Hflag].
  - unfold play in Hnone. congruence.
  - unfold play in Hflag.
    destruct (play_idle euclid more _ Hflag Hidle) as [Hc Hp].
    unfold play in Hc, Hp. split; [congruence | exact Hp].
Qed.

(** A capture that has resumed, then a tick and a whole second attempt in
    front of a stranger: the descriptor is the first one. *)
Lemma baseline_final_once_idle_witness :
  capturedFace
    (app (play coordinateDistance
            ([Press captureScene; Resume 0 captureScene] ++
             [Interval strangerScene; Press strangerCapture; Resume 0 strangerCapture])
            (mkSession (initialState ∅) [])))
  = Some [0.1].
Proof.
  apply (baseline_final_once_idle coordinateDistance ∅
           [Press captureScene; Resume 0 captureScene]
           [Interval strangerScene; Press strangerCapture; Resume 0 strangerCapture]
           [0.1]).
  - reflexivity.
  - reflexivity.
Defined.
